(** * PeptIQ trend detection: the pipeline of [TrendDetector]

    A shallow embedding of [src/workflows/trend-detection/detector.py].

    - A pandas [DataFrame] is the list of its rows, in frame order.
    - The numeric columns are float64 columns: they are binary64 values here
      (Rocq's primitive floats), and a null cell is NaN, as pandas stores it.
    - A Python [str] is a [string]; one [ascii] stands for one character.
    - Python's [str()] of a float and [round(x, 1)] are not re-implemented:
      the functions that call them take them as section variables. *)

From Stdlib Require Import Floats List String Ascii ZArith Bool Arith Lia.
From Stdlib Require Import Uint63 DecimalString FloatAxioms.
From Stdlib Require Import Sorted Permutation.
Import ListNotations.

(** ** Data model *)

Inductive Severity : Set := INFO | WARNING | CRITICAL.

Definition Severity_eqb (a b : Severity) : bool :=
  match a, b with
  | INFO, INFO | WARNING, WARNING | CRITICAL, CRITICAL => true
  | _, _ => false
  end.

(** One row of the frame that [fetch_recent_tests] reads: the columns of its
    SELECT, under the names the frame gives them. *)
Record Row : Type := mkRow {
  id : Z;
  tracking_id : string;
  peptideType : string;
  supplierName : string;
  purity : float;
  endotoxin : float;
  residualTfa : float;
  createdAt : Z;
  aiGrade : string;
  verified : bool
}.

Definition DataFrame : Type := list Row.

(** ** Float comparisons as Python writes them *)

Module PyFloat.

(** [x > y] on floats: false as soon as one side is NaN. *)
Definition gt (x y : float) : bool := PrimFloat.ltb y x.

(** [pd.notna] on a float cell. *)
Definition notna (x : float) : bool := negb (is_nan x).

(** A [len] or a count turned into a float64. *)
Definition of_nat (n : nat) : float := PrimFloat.of_uint63 (Uint63.of_Z (Z.of_nat n)).

End PyFloat.

Notation "x >? y" := (PyFloat.gt x y) (at level 70, no associativity) : float_scope.

(** ** Strings as Python builds them *)

Module PyStr.

(** [str(n)] of a non-negative int. *)
Definition of_nat (n : nat) : string := NilEmpty.string_of_uint (Nat.to_uint n).

(** The slice [s[:n]]: the first [n] characters, or all of [s] when it is shorter. *)
Fixpoint take (n : nat) (s : string) : string :=
  match n, s with
  | S n', String c s' => String c (take n' s')
  | _, _ => EmptyString
  end.

(** The line feed that the source writes as a backslash escape. *)
Definition newline : string := String (ascii_of_nat 10) EmptyString.

End PyStr.

(** ** Column statistics (pandas [Series] reductions, [skipna=True]) *)

Module Series.

Definition count (xs : list float) : nat := List.length (filter PyFloat.notna xs).

(** A null cell replaced by [v] before a reduction runs over the column. *)
Definition fill (v x : float) : float := if is_nan x then v else x.

(** Sum of the column, null cells counting for zero, added in frame order. *)
Definition sum (xs : list float) : float :=
  fold_left PrimFloat.add (map (fill 0%float) xs) 0%float.

(** [Series.mean()]: the sum over the number of non-null cells, NaN when
    there is none. *)
Definition mean (xs : list float) : float :=
  if (count xs =? 0)%nat then nan else (sum xs / PyFloat.of_nat (count xs))%float.

Definition fmax (a b : float) : float := if (a <? b)%float then b else a.
Definition fmin (a b : float) : float := if (b <? a)%float then b else a.

(** [Series.max()] and [Series.min()]: null cells are skipped, and a column
    with no value gives NaN. *)
Definition max (xs : list float) : float :=
  if (count xs =? 0)%nat then nan
  else fold_left fmax (map (fill neg_infinity) xs) neg_infinity.

Definition min (xs : list float) : float :=
  if (count xs =? 0)%nat then nan
  else fold_left fmin (map (fill infinity) xs) infinity.

(** [Series.std()]: the sample standard deviation ([ddof=1]), NaN below two
    values. *)
Definition std (xs : list float) : float :=
  if (count xs <=? 1)%nat then nan
  else
    let avg := (sum xs / PyFloat.of_nat (count xs))%float in
    let sqr := map (fun x => if is_nan x then 0%float else ((avg - x) * (avg - x))%float) xs in
    PrimFloat.sqrt (fold_left PrimFloat.add sqr 0%float / PyFloat.of_nat (count xs - 1))%float.

End Series.

(** ** Frame operations *)

(** [Series.unique()]: the distinct values, in order of first appearance. *)
Fixpoint unique (l : list string) : list string :=
  match l with
  | [] => []
  | x :: t => x :: filter (fun y => negb (String.eqb x y)) (unique t)
  end.

(** [df[df['supplierName'] == supplier]] *)
Definition by_supplier (supplier : string) (df : DataFrame) : DataFrame :=
  filter (fun r => String.eqb (supplierName r) supplier) df.

(** [df[df['peptideType'] == peptide]] *)
Definition by_peptide (peptide : string) (df : DataFrame) : DataFrame :=
  filter (fun r => String.eqb (peptideType r) peptide) df.

Fixpoint insert_createdAt (r : Row) (l : DataFrame) : DataFrame :=
  match l with
  | [] => [r]
  | h :: t => if (createdAt r <=? createdAt h)%Z then r :: l else h :: insert_createdAt r t
  end.

(** [df.sort_values('createdAt')]: ascending. pandas does not fix the order
    of rows that share a timestamp; the model keeps their frame order. *)
Fixpoint sort_values_createdAt (df : DataFrame) : DataFrame :=
  match df with
  | [] => []
  | r :: t => insert_createdAt r (sort_values_createdAt t)
  end.

(** [df.head(n)], [df.tail(n)] and [df.iloc[a:b]] *)
Definition head (n : nat) (df : DataFrame) : DataFrame := firstn n df.
Definition tail (n : nat) (df : DataFrame) : DataFrame := skipn (List.length df - n) df.
Definition iloc (a b : nat) (df : DataFrame) : DataFrame := firstn (b - a) (skipn a df).

(** [df.iloc[0]['peptideType']], read only on frames that have a row. *)
Definition first_peptide (df : DataFrame) : string := List.hd EmptyString (map peptideType df).

(** ** Findings *)

Record DeclineFinding : Type := mkDecline {
  d_supplier : string;
  d_peptide : string;
  d_previous_avg : float;
  d_recent_avg : float;
  d_drop : float;
  d_sample_count : nat;
  d_severity : Severity
}.

Record VarianceFinding : Type := mkVariance {
  v_supplier : string;
  v_peptide : string;
  v_mean : float;
  v_std_dev : float;
  v_range : float;
  v_batches : nat;
  v_severity : Severity
}.

Record SafetyFinding : Type := mkSafety {
  s_tracking_id : string;
  s_supplier : string;
  s_peptide : string;
  s_concerns : list string;
  s_severity : Severity
}.

Record TrendEntry : Type := mkTrend {
  t_avg_purity : float;
  t_trend : string;
  t_sample_count : nat
}.

(** ** The detectors *)

Section Detectors.

(** Python's [str(x)] of a float, as an f-string interpolates it. *)
Variable py_str : float -> string.

(** Python's [round(float(x), 1)]. *)
Variable py_round1 : float -> float.

(** *** [detect_declining_suppliers] *)

(** The supplier's rows, oldest first. *)
Definition supplier_history (df : DataFrame) (supplier : string) : DataFrame :=
  sort_values_createdAt (by_supplier supplier df).

Definition recent_avg (supplier_df : DataFrame) : float :=
  Series.mean (map purity (head 3 supplier_df)).

Definition previous_avg (supplier_df : DataFrame) : float :=
  if (3 <? List.length supplier_df)%nat
  then Series.mean (map purity (iloc 3 6 supplier_df))
  else recent_avg supplier_df.

Definition purity_drop (supplier_df : DataFrame) : float :=
  (previous_avg supplier_df - recent_avg supplier_df)%float.

(** One iteration of the loop over the distinct suppliers: what it appends
    to [declining]. *)
Definition declining_supplier (df : DataFrame) (supplier : string) : list DeclineFinding :=
  let supplier_df := supplier_history df supplier in
  if (4 <=? List.length supplier_df)%nat then
    let recent := recent_avg supplier_df in
    let previous := previous_avg supplier_df in
    let drop := (previous - recent)%float in
    if (drop >? 2.0)%float then
      [ {| d_supplier := supplier;
           d_peptide := first_peptide supplier_df;
           d_previous_avg := py_round1 previous;
           d_recent_avg := py_round1 recent;
           d_drop := py_round1 drop;
           d_sample_count := List.length supplier_df;
           d_severity := if (drop >? 5.0)%float then CRITICAL else WARNING |} ]
    else []
  else [].

Definition detect_declining_suppliers (df : DataFrame) : list DeclineFinding :=
  flat_map (declining_supplier df) (unique (map supplierName df)).

(** *** [detect_batch_variance] *)

Definition range_purity (supplier_df : DataFrame) : float :=
  (Series.max (map purity supplier_df) - Series.min (map purity supplier_df))%float.

Definition variance_supplier (df : DataFrame) (supplier : string) : list VarianceFinding :=
  let supplier_df := by_supplier supplier df in
  if (3 <=? List.length supplier_df)%nat then
    let std_dev := Series.std (map purity supplier_df) in
    if (range_purity supplier_df >? 5.0)%float then
      [ {| v_supplier := supplier;
           v_peptide := first_peptide supplier_df;
           v_mean := py_round1 (Series.mean (map purity supplier_df));
           v_std_dev := py_round1 std_dev;
           v_range := py_round1 (range_purity supplier_df);
           v_batches := List.length supplier_df;
           v_severity := WARNING |} ]
    else []
  else [].

Definition detect_batch_variance (df : DataFrame) : list VarianceFinding :=
  flat_map (variance_supplier df) (unique (map supplierName df)).

(** *** [detect_safety_concerns] *)

(** The two checks of one loop iteration, each on the pair of the
    iteration's locals [concerns] and [severity]. *)
Definition check_endotoxin (row : Row) (st : list string * Severity) : list string * Severity :=
  if PyFloat.notna (endotoxin row) && (endotoxin row >? 1.0)%float then
    (fst st ++ [("High endotoxin: " ++ py_str (endotoxin row) ++ " EU/mg")%string],
     if (endotoxin row >? 2.0)%float then CRITICAL else WARNING)
  else st.

Definition check_residualTfa (row : Row) (st : list string * Severity) : list string * Severity :=
  if PyFloat.notna (residualTfa row) && (residualTfa row >? 1.5)%float then
    (fst st ++ [("High residual TFA: " ++ py_str (residualTfa row) ++ "%")%string],
     WARNING)
  else st.

(** The body of the loop over [df.iterrows()]: what it appends to
    [safety_issues]. *)
Definition safety_row (row : Row) : list SafetyFinding :=
  let st := check_residualTfa row (check_endotoxin row ([], INFO)) in
  match fst st with
  | [] => []
  | _ :: _ =>
      [ {| s_tracking_id := tracking_id row;
           s_supplier := supplierName row;
           s_peptide := peptideType row;
           s_concerns := fst st;
           s_severity := snd st |} ]
  end.

Definition detect_safety_concerns (df : DataFrame) : list SafetyFinding :=
  flat_map safety_row df.

(** *** [analyze_market_trends] *)

Definition trend_of (peptide_df : DataFrame) : string :=
  let recent_avg := Series.mean (map purity (head 3 peptide_df)) in
  let older_avg := Series.mean (map purity (tail 3 peptide_df)) in
  if (recent_avg >? older_avg)%float then "improving"%string else "declining"%string.

Definition trend_peptide (df : DataFrame) (peptide : string) : list (string * TrendEntry) :=
  let peptide_df := by_peptide peptide df in
  if (5 <=? List.length peptide_df)%nat then
    [ (peptide,
       {| t_avg_purity := py_round1 (Series.mean (map purity peptide_df));
          t_trend := trend_of peptide_df;
          t_sample_count := List.length peptide_df |}) ]
  else [].

(** The dict [trends], as its items in insertion order; the loop visits each
    distinct peptide once, so no key is assigned twice. *)
Definition analyze_market_trends (df : DataFrame) : list (string * TrendEntry) :=
  flat_map (trend_peptide df) (unique (map peptideType df)).

End Detectors.

(** ** Effects: what a run prints, asks and posts *)

(** The structured values that [generate_ai_insights] interpolates into its
    prompt; their rendering as text ([json.dumps]) is not modelled. *)
Record Prompt : Type := mkPrompt {
  p_total : nat;
  p_suppliers : nat;
  p_peptides : nat;
  p_declining_count : nat;
  p_declining : list DeclineFinding;
  p_variance_count : nat;
  p_variance : list VarianceFinding;
  p_safety_count : nat;
  p_safety : list SafetyFinding;
  p_trends : list (string * TrendEntry)
}.

(** A Slack block of the critical alert. *)
Inductive Block : Type :=
| HeaderBlock (text : string)
| SectionBlock (text : string).

(** The JSON body of one webhook post. *)
Inductive Body : Type :=
| BlocksBody (blocks : list Block)
| SummaryBody (text : string) (color : string) (attachment_text : string).

Inductive Event : Type :=
| Printed (line : string)
| Queried (days : nat)
| Generated (prompt : Prompt)
| Posted (url : string) (body : Body).

Inductive Exn : Set := IndexError.

(** A computation: the events it performed, in order, and either the
    exception that ended it or its result. Failures of the collaborators
    themselves (store, text generation, webhook) are outside the model: a
    call to one of them returns. *)
Definition Eff (A : Type) : Type := (list Event * (Exn + A))%type.

Definition ret {A : Type} (a : A) : Eff A := ([], inr a).

Definition raise {A : Type} (e : Exn) : Eff A := ([], inl e).

Definition emit (ev : Event) : Eff unit := ([ev], inr tt).

Definition bind {A B : Type} (m : Eff A) (k : A -> Eff B) : Eff B :=
  match m with
  | (t, inl e) => (t, inl e)
  | (t, inr a) => (t ++ fst (k a), snd (k a))
  end.

Notation "x <- m ;; k" := (bind m (fun x => k))
  (at level 61, m at next level, right associativity).
Notation "m ;;; k" := (bind m (fun _ => k))
  (at level 61, right associativity).

Definition trace {A : Type} (m : Eff A) : list Event := fst m.
Definition outcome {A : Type} (m : Eff A) : Exn + A := snd m.

(** What the process reads from its environment and its collaborators. *)
Record World : Type := mkWorld {
  now : string;
  completed_samples : nat -> DataFrame;
  claude_reply : Prompt -> string
}.

(** The one attribute of [self] that the modelled methods branch on. *)
Record TrendDetector : Type := mkDetector {
  slack_webhook : option string
}.

(** A finding as [send_alerts] mixes them in [critical]. *)
Inductive Issue : Type :=
| DeclineIssue (d : DeclineFinding)
| SafetyIssue (s : SafetyFinding).

Definition issue_supplier (i : Issue) : string :=
  match i with
  | DeclineIssue d => d_supplier d
  | SafetyIssue s => s_supplier s
  end.

Definition is_critical (sev : Severity) : bool := Severity_eqb sev CRITICAL.

(** The list [critical] of [send_alerts]. *)
Definition critical_issues (declining : list DeclineFinding) (safety : list SafetyFinding)
  : list Issue :=
  map DeclineIssue (filter (fun d => is_critical (d_severity d)) declining)
  ++ map SafetyIssue (filter (fun s => is_critical (s_severity s)) safety).

(** Is a body the weekly summary? *)
Definition is_summary (b : Body) : bool :=
  match b with SummaryBody _ _ _ => true | BlocksBody _ => false end.

Definition posted_bodies (t : list Event) : list Body :=
  flat_map (fun ev => match ev with Posted _ b => [b] | _ => [] end) t.

Definition generated_prompts (t : list Event) : list Prompt :=
  flat_map (fun ev => match ev with Generated p => [p] | _ => [] end) t.

(** A safety finding whose ['concerns'] list has a first element. *)
Definition has_concern (s : SafetyFinding) : Prop := s_concerns s <> [].

(** A critical finding from which [send_alerts] can take a concern text. *)
Definition issue_has_text (i : Issue) : Prop :=
  match i with
  | DeclineIssue _ => True
  | SafetyIssue s => has_concern s
  end.

Section Pipeline.

Variable py_str : float -> string.
Variable py_round1 : float -> float.

(** *** [generate_ai_insights] *)

Definition build_prompt (df : DataFrame) (declining : list DeclineFinding)
    (variance : list VarianceFinding) (safety : list SafetyFinding) : Prompt :=
  {| p_total := List.length df;
     p_suppliers := List.length (unique (map supplierName df));
     p_peptides := List.length (unique (map peptideType df));
     p_declining_count := List.length declining;
     p_declining := firstn 5 declining;
     p_variance_count := List.length variance;
     p_variance := firstn 5 variance;
     p_safety_count := List.length safety;
     p_safety := firstn 5 safety;
     p_trends := analyze_market_trends py_round1 df |}.

Definition generate_ai_insights (w : World) (df : DataFrame)
    (declining : list DeclineFinding) (variance : list VarianceFinding)
    (safety : list SafetyFinding) : Eff string :=
  let prompt := build_prompt df declining variance safety in
  emit (Generated prompt) ;;;
  ret (claude_reply w prompt).

(** *** [send_alerts] *)

(** The text of one section: the first concern of a safety finding, the
    formatted drop of a decline finding (which has no ['concerns'] key). *)
Definition concern_text (issue : Issue) : Eff string :=
  match issue with
  | DeclineIssue d => ret ("Quality drop: " ++ py_str (d_drop d) ++ "%")%string
  | SafetyIssue s =>
      match s_concerns s with
      | [] => raise IndexError
      | c :: _ => ret c
      end
  end.

(** The loop [for issue in critical[:3]], given the slice. *)
Fixpoint section_blocks (issues : list Issue) : Eff (list Block) :=
  match issues with
  | [] => ret []
  | issue :: rest =>
      text <- concern_text issue ;;
      blocks <- section_blocks rest ;;
      ret (SectionBlock ("*" ++ issue_supplier issue ++ "*" ++ PyStr.newline ++ text)%string
           :: blocks)
  end.

(** The section block that renders one critical finding. *)
Definition section_of (issue : Issue) (text : string) : Block :=
  SectionBlock ("*" ++ issue_supplier issue ++ "*" ++ PyStr.newline ++ text)%string.

(** [block] is the section of [issue]: its text is the issue's concern text. *)
Definition renders (issue : Issue) (block : Block) : Prop :=
  exists text, concern_text issue = ret text /\ block = section_of issue text.

Definition critical_header : Block := HeaderBlock "🚨 CRITICAL QUALITY ALERTS".

Definition summary_text (total_tests n_declining n_safety : nat) : string :=
  ("📊 Weekly Quality Report: " ++ PyStr.of_nat total_tests ++ " tests, "
   ++ PyStr.of_nat n_declining ++ " declining, "
   ++ PyStr.of_nat n_safety ++ " safety issues")%string.

Definition summary_body (declining : list DeclineFinding) (safety : list SafetyFinding)
    (insights : string) (total_tests : nat) : Body :=
  SummaryBody (summary_text total_tests (List.length declining) (List.length safety))
              "#36a64f"
              (PyStr.take 500 insights ++ "...")%string.

Definition send_alerts (self : TrendDetector)
    (declining : list DeclineFinding) (variance : list VarianceFinding)
    (safety : list SafetyFinding) (insights : string) (total_tests : nat) : Eff unit :=
  match slack_webhook self with
  | None => ret tt
  | Some EmptyString => ret tt
  | Some url =>
      let critical := critical_issues declining safety in
      match critical with
      | [] => ret tt
      | _ :: _ =>
          blocks <- section_blocks (firstn 3 critical) ;;
          emit (Posted url (BlocksBody (critical_header :: blocks)))
      end ;;;
      emit (Posted url (summary_body declining safety insights total_tests))
  end.

(** *** [fetch_recent_tests] and [run] *)

Definition fetch_recent_tests (w : World) (days : nat) : Eff DataFrame :=
  emit (Queried days) ;;;
  ret (completed_samples w days).

Definition run (w : World) (self : TrendDetector) : Eff unit :=
  emit (Printed ("[" ++ now w ++ "] Running trend detection...")%string) ;;;
  df <- fetch_recent_tests w 7 ;;
  if (List.length df =? 0)%nat then
    emit (Printed "No recent tests found")
  else
    let declining := detect_declining_suppliers py_round1 df in
    let variance := detect_batch_variance py_round1 df in
    let safety := detect_safety_concerns py_str df in
    insights <- generate_ai_insights w df declining variance safety ;;
    send_alerts self declining variance safety insights (List.length df) ;;;
    emit (Printed ("Complete. Found: " ++ PyStr.of_nat (List.length declining)
                   ++ " declining, " ++ PyStr.of_nat (List.length variance)
                   ++ " variance, " ++ PyStr.of_nat (List.length safety) ++ " safety")%string) ;;;
    emit (Printed ("Insights: " ++ PyStr.take 200 insights ++ "...")%string).

End Pipeline.

(** ** Orderings and tests used to state properties *)

(** [r1] is not newer than [r2]. *)
Definition createdAt_le (r1 r2 : Row) : Prop := (createdAt r1 <= createdAt r2)%Z.

(** ** Start-up: [__init__] and the entry point *)

(** [os.environ]: the value of a variable, when it is set. *)
Definition Environ : Type := string -> option string.

(** What can raise in [__init__]: [os.environ[key]] on a variable that is
    not set, [create_engine] on the URL it is given (an empty or unparseable
    URL, an unknown dialect, a missing driver), and the constructor of the
    text generation client. *)
Inductive StartError : Type :=
| KeyError (key : string)
| EngineError (url : string)
| ClientError (key : string).

(** The two constructors that [__init__] calls, each by whether the call
    returns ([true]) or raises ([false]) on its argument. *)
Record Constructors : Type := mkConstructors {
  create_engine : string -> bool;
  anthropic_client : string -> bool
}.

(** The attributes that [__init__] reads from the environment; the engine
    and the client built from the first two are the collaborators of
    [World]. *)
Record Attributes : Type := mkAttributes {
  database_url : string;
  anthropic_api_key : string;
  detector_self : TrendDetector
}.

(** [__init__], statement by statement: the URL is read, the engine is
    built from it, the key is read, the client is built from it, and the
    webhook target is read with [os.environ.get]. *)
Definition init (lib : Constructors) (environ : Environ) : StartError + Attributes :=
  match environ "DATABASE_URL"%string with
  | None => inl (KeyError "DATABASE_URL")
  | Some url =>
      if create_engine lib url then
        match environ "ANTHROPIC_API_KEY"%string with
        | None => inl (KeyError "ANTHROPIC_API_KEY")
        | Some key =>
            if anthropic_client lib key then
              inr {| database_url := url;
                     anthropic_api_key := key;
                     detector_self :=
                       {| slack_webhook := environ "SLACK_WEBHOOK_URL"%string |} |}
            else inl (ClientError key)
        end
      else inl (EngineError url)
  end.

(** How the process ends when it does not return. *)
Inductive Crash : Type :=
| AtStart (e : StartError)
| InRun (e : Exn).

Section Entry.

Variable py_str : float -> string.
Variable py_round1 : float -> float.

(** The [__main__] block: build the detector, then run it. *)
Definition main (lib : Constructors) (environ : Environ) (w : World)
  : list Event * (Crash + unit) :=
  match init lib environ with
  | inl e => ([], inl (AtStart e))
  | inr attrs =>
      let r := run py_str py_round1 w (detector_self attrs) in
      (trace r, match outcome r with
                | inl e => inl (InRun e)
                | inr tt => inr tt
                end)
  end.

End Entry.

(** The queries of a trace, by their window. *)
Definition queried_days (t : list Event) : list nat :=
  flat_map (fun ev => match ev with Queried days => [days] | _ => [] end) t.

(** ** Concrete frames *)

Module Samples.

Definition row (tid supplier peptide : string) (p e t : float) (at_ : Z) : Row :=
  {| id := at_; tracking_id := tid; peptideType := peptide; supplierName := supplier;
     purity := p; endotoxin := e; residualTfa := t; createdAt := at_;
     aiGrade := "A"; verified := true |}.

(** Endotoxin 2.5 EU/mg (above 2.0) together with residual TFA 2.0% (above 1.5). *)
Definition both_elevated : Row := row "PTQ-1" "Acme" "BPC157" 99 2.5 2 1.

(** Endotoxin 2.5 EU/mg alone. *)
Definition endotoxin_only : Row := row "PTQ-2" "Acme" "TB500" 99 2.5 1 2.

(** A supplier's rows with the given purities, the first one the newest:
    the order in which the store returns them. *)
Fixpoint newest_first (supplier peptide : string) (ps : list float) : DataFrame :=
  match ps with
  | [] => []
  | p :: rest =>
      row "PTQ" supplier peptide p nan nan (Z.of_nat (List.length rest))
      :: newest_first supplier peptide rest
  end.

(** Stand-ins for the two Python built-ins, for running the model. *)
Definition no_str (x : float) : string := EmptyString.
Definition no_round (x : float) : float := x.

(** Four records of one supplier: purity 90 on the three oldest, 99 on the
    newest. *)
Definition acme4 : DataFrame := newest_first "Acme" "BPC157" [99; 90; 90; 90]%float.

(** The oldest three records at purity 90 and the newest at [p]: the drop
    is [p - 90]. *)
Definition drop_frame (p : float) : DataFrame :=
  newest_first "Acme" "BPC157" [p; 90; 90; 90]%float.

Definition hook : string := "https://hooks.slack.example/T0/B0".
Definition detector : TrendDetector := {| slack_webhook := Some hook |}.

Definition decline (supplier : string) (drop : float) (sev : Severity) : DeclineFinding :=
  {| d_supplier := supplier; d_peptide := "BPC157"; d_previous_avg := 98;
     d_recent_avg := (98 - drop)%float; d_drop := drop; d_sample_count := 6;
     d_severity := sev |}.

Definition safety (tid supplier : string) (sev : Severity) : SafetyFinding :=
  {| s_tracking_id := tid; s_supplier := supplier; s_peptide := "TB500";
     s_concerns := ["High endotoxin: 2.5 EU/mg"%string]; s_severity := sev |}.

(** Two CRITICAL and one WARNING decline findings, two CRITICAL and two
    WARNING safety findings. *)
Definition declining3 : list DeclineFinding :=
  [decline "Acme" 14 CRITICAL; decline "Beta" 3 WARNING; decline "Gamma" 6 CRITICAL].
Definition safety4 : list SafetyFinding :=
  [safety "PTQ-7" "Delta" WARNING; safety "PTQ-8" "Acme" CRITICAL;
   safety "PTQ-9" "Beta" WARNING; safety "PTQ-10" "Gamma" CRITICAL].

Definition brief : string := "Two suppliers need a call.".

(** A store with no completed sample in the window. *)
Definition quiet_world : World :=
  {| now := "2024-05-06 06:00:00";
     completed_samples := fun _ => [];
     claude_reply := fun _ => "Nothing to report."%string |}.


(** The decline finding of [acme4]. *)
Definition acme4_finding : DeclineFinding :=
  {| d_supplier := "Acme"; d_peptide := "BPC157"; d_previous_avg := 99;
     d_recent_avg := 90; d_drop := 9; d_sample_count := 4; d_severity := CRITICAL |}.

(** Four records of one supplier, none with a purity value. *)
Definition null_frame : DataFrame := newest_first "Acme" "BPC157" [nan; nan; nan; nan]%float.

(** Three CRITICAL decline findings and a WARNING one. *)
Definition declining4 : list DeclineFinding :=
  [decline "Acme" 14 CRITICAL; decline "Beta" 3 WARNING; decline "Gamma" 6 CRITICAL;
   decline "Delta" 8 CRITICAL].

(** A detector without a webhook target. *)
Definition silent_detector : TrendDetector := {| slack_webhook := None |}.

(** A store that returns [acme4] for any window. *)
Definition busy_world : World :=
  {| now := "2024-05-06 06:00:00";
     completed_samples := fun _ => acme4;
     claude_reply := fun _ => brief |}.

(** The variance finding of [acme4]. *)
Definition acme4_variance : VarianceFinding :=
  {| v_supplier := "Acme"; v_peptide := "BPC157"; v_mean := 92.25;
     v_std_dev := 4.5; v_range := 9; v_batches := 4; v_severity := WARNING |}.

(** An environment that sets DATABASE_URL to the empty string and nothing
    else, and constructors of which the engine's refuses the empty URL. *)
Definition empty_url_environ : Environ :=
  fun key => if String.eqb key "DATABASE_URL" then Some EmptyString else None.
Definition refusing_empty_url : Constructors :=
  {| create_engine := fun url => negb (String.eqb url EmptyString);
     anthropic_client := fun _ => true |}.

End Samples.

(** * Properties *)

(** ** Facts on binary64 comparisons *)

Module FloatFacts.

Lemma SFcompare_antisym (x y : spec_float) :
  SFcompare y x = option_map CompOpp (SFcompare x y).
Proof.
  destruct x as [sx | sx | | sx mx ex], y as [sy | sy | | sy my ey]; cbn;
    try destruct sx; try destruct sy; try reflexivity.
  all: rewrite (Z.compare_antisym ex ey); destruct (ex ?= ey)%Z; cbn; try reflexivity.
  all: rewrite ?CompOpp_involutive, Pos.compare_cont_antisym; reflexivity.
Qed.

Lemma SFcompare_defined (x y : spec_float) :
  SFcompare x x <> None -> SFcompare y y <> None -> SFcompare x y <> None.
Proof.
  destruct x, y; cbn; congruence.
Qed.

(** [x > y] excludes [x <= y], and conversely. *)
Lemma ltb_true_leb_false (x y : float) :
  (y <? x)%float = true -> (x <=? y)%float = false.
Proof.
  rewrite FloatAxioms.ltb_spec, FloatAxioms.leb_spec. unfold SFltb, SFleb.
  rewrite (SFcompare_antisym (Prim2SF y) (Prim2SF x)).
  destruct (SFcompare (Prim2SF y) (Prim2SF x)) as [[ | | ] | ]; cbn; congruence.
Qed.

Lemma leb_true_ltb_false (x y : float) :
  (x <=? y)%float = true -> (y <? x)%float = false.
Proof.
  intros H. destruct (y <? x)%float eqn:E; [| reflexivity].
  apply ltb_true_leb_false in E. congruence.
Qed.

Lemma eqb_true_ltb_false (x y : float) :
  (x =? y)%float = true -> (y <? x)%float = false.
Proof.
  rewrite FloatAxioms.ltb_spec, FloatAxioms.eqb_spec. unfold SFltb, SFeqb.
  rewrite (SFcompare_antisym (Prim2SF x) (Prim2SF y)).
  destruct (SFcompare (Prim2SF x) (Prim2SF y)) as [[ | | ] | ]; cbn; congruence.
Qed.

Lemma ltb_irrefl (x : float) : (x <? x)%float = false.
Proof.
  rewrite FloatAxioms.ltb_spec. unfold SFltb.
  pose proof (SFcompare_antisym (Prim2SF x) (Prim2SF x)) as H.
  destruct (SFcompare (Prim2SF x) (Prim2SF x)) as [[ | | ] | ]; cbn in H; congruence.
Qed.

(** Between two numbers (neither is NaN), [x <= y] is the negation of [x > y]. *)
Lemma leb_negb_ltb (x y : float) :
  is_nan x = false -> is_nan y = false -> (x <=? y)%float = negb (y <? x)%float.
Proof.
  unfold is_nan. rewrite !FloatAxioms.eqb_spec, FloatAxioms.ltb_spec, FloatAxioms.leb_spec. unfold SFeqb, SFltb, SFleb.
  intros Hx Hy.
  assert (Hd : SFcompare (Prim2SF x) (Prim2SF y) <> None).
  { apply SFcompare_defined.
    - destruct (SFcompare (Prim2SF x) (Prim2SF x)); [discriminate | discriminate Hx].
    - destruct (SFcompare (Prim2SF y) (Prim2SF y)); [discriminate | discriminate Hy]. }
  rewrite (SFcompare_antisym (Prim2SF x) (Prim2SF y)).
  destruct (SFcompare (Prim2SF x) (Prim2SF y)) as [[ | | ] | ]; cbn; congruence.
Qed.

Lemma ltb_true_not_nan (x y : float) :
  (x <? y)%float = true -> is_nan x = false /\ is_nan y = false.
Proof.
  unfold is_nan. rewrite !FloatAxioms.eqb_spec, FloatAxioms.ltb_spec. unfold SFeqb, SFltb.
  destruct (Prim2SF x) as [sx | sx | | sx mx ex], (Prim2SF y) as [sy | sy | | sy my ey];
    cbn; try discriminate; intros _;
    try destruct sx; try destruct sy; cbn;
    rewrite ?Z.compare_refl, ?Pos.compare_cont_refl; cbn; auto.
Qed.

End FloatFacts.

(** ** Facts on the frame operations *)

Lemma unique_In (x : string) (l : list string) : In x (unique l) <-> In x l.
Proof.
  induction l as [| a t IH]; cbn; [tauto |].
  rewrite filter_In, IH.
  destruct (String.eqb_spec a x) as [-> | Hne]; cbn.
  - tauto.
  - intuition congruence.
Qed.

Lemma unique_NoDup (l : list string) : NoDup (unique l).
Proof.
  induction l as [| a t IH]; cbn; constructor.
  - rewrite filter_In, String.eqb_refl. cbn. intros [_ H]. discriminate.
  - now apply NoDup_filter.
Qed.

Lemma insert_createdAt_length (r : Row) (l : DataFrame) :
  List.length (insert_createdAt r l) = S (List.length l).
Proof.
  induction l as [| h t IH]; cbn; [reflexivity |].
  destruct (createdAt r <=? createdAt h)%Z; cbn; congruence.
Qed.

Lemma sort_values_createdAt_length (df : DataFrame) :
  List.length (sort_values_createdAt df) = List.length df.
Proof.
  induction df as [| r t IH]; cbn; [reflexivity |].
  now rewrite insert_createdAt_length, IH.
Qed.

(** A supplier with a row in the frame is one of the distinct suppliers. *)
Lemma by_supplier_nonempty (supplier : string) (df : DataFrame) :
  1 <= List.length (by_supplier supplier df) -> In supplier (unique (map supplierName df)).
Proof.
  unfold by_supplier. intros Hlen. apply unique_In.
  destruct (filter _ df) as [| r rest] eqn:E; [cbn in Hlen; lia |].
  assert (Hr : In r (filter (fun r => String.eqb (supplierName r) supplier) df))
    by (rewrite E; now left).
  apply filter_In in Hr. destruct Hr as [Hin Heq].
  apply String.eqb_eq in Heq. subst supplier. now apply in_map.
Qed.

Lemma by_peptide_nonempty (peptide : string) (df : DataFrame) :
  1 <= List.length (by_peptide peptide df) -> In peptide (unique (map peptideType df)).
Proof.
  unfold by_peptide. intros Hlen. apply unique_In.
  destruct (filter _ df) as [| r rest] eqn:E; [cbn in Hlen; lia |].
  assert (Hr : In r (filter (fun r => String.eqb (peptideType r) peptide) df))
    by (rewrite E; now left).
  apply filter_In in Hr. destruct Hr as [Hin Heq].
  apply String.eqb_eq in Heq. subst peptide. now apply in_map.
Qed.

(** A loop over distinct keys that appends at most one item per key, each
    carrying its key, yields items with distinct keys. *)
Lemma flat_map_keyed_NoDup {K A : Type} (key : A -> K) (step : K -> list A) (ks : list K) :
  NoDup ks ->
  (forall k a, In a (step k) -> key a = k) ->
  (forall k, List.length (step k) <= 1) ->
  NoDup (map key (flat_map step ks)).
Proof.
  intros Hnd Hkey Hone.
  induction Hnd as [| k ks Hnotin Hnd IH]; cbn; [constructor |].
  rewrite map_app.
  specialize (Hone k). pose proof (Hkey k) as Hk.
  destruct (step k) as [| a [| b rest]]; cbn in *; [exact IH | | lia].
  constructor; [| exact IH].
  rewrite (Hk a (or_introl eq_refl)).
  intros Hin. apply in_map_iff in Hin. destruct Hin as (a' & Ha' & Hin).
  apply in_flat_map in Hin. destruct Hin as (k' & Hk' & Hin).
  apply Hkey in Hin. congruence.
Qed.

(** ** The detectors *)

Section DetectorProperties.

Variable py_str : float -> string.
Variable py_round1 : float -> float.

(** *** Decline detector *)

(** What one iteration appends, read off the two guards. *)
Lemma declining_supplier_In (df : DataFrame) (k : string) (f : DeclineFinding) :
  In f (declining_supplier py_round1 df k) <->
  (4 <=? List.length (supplier_history df k))%nat = true /\
  (purity_drop (supplier_history df k) >? 2.0)%float = true /\
  f = {| d_supplier := k;
         d_peptide := first_peptide (supplier_history df k);
         d_previous_avg := py_round1 (previous_avg (supplier_history df k));
         d_recent_avg := py_round1 (recent_avg (supplier_history df k));
         d_drop := py_round1 (purity_drop (supplier_history df k));
         d_sample_count := List.length (supplier_history df k);
         d_severity := if (purity_drop (supplier_history df k) >? 5.0)%float
                       then CRITICAL else WARNING |}.
Proof.
  unfold declining_supplier, purity_drop. cbv zeta.
  destruct (4 <=? List.length (supplier_history df k))%nat; [| cbn; intuition discriminate].
  destruct (_ >? 2.0)%float; cbn; [| intuition discriminate].
  intuition congruence.
Qed.

Lemma declining_supplier_length (df : DataFrame) (k : string) :
  List.length (declining_supplier py_round1 df k) <= 1.
Proof.
  unfold declining_supplier. cbv zeta.
  destruct (4 <=? _)%nat; [| cbn; lia].
  destruct (_ >? 2.0)%float; cbn; lia.
Qed.

Lemma supplier_history_length (df : DataFrame) (k : string) :
  List.length (supplier_history df k) = List.length (by_supplier k df).
Proof. apply sort_values_createdAt_length. Qed.

(** The finding of a supplier, when the detector emits one. *)
Lemma detect_declining_In (df : DataFrame) (f : DeclineFinding) :
  In f (detect_declining_suppliers py_round1 df) <->
  4 <= List.length (by_supplier (d_supplier f) df) /\
  In f (declining_supplier py_round1 df (d_supplier f)).
Proof.
  unfold detect_declining_suppliers. rewrite in_flat_map. split.
  - intros (k & _ & Hin).
    pose proof Hin as Hspec. apply declining_supplier_In in Hspec.
    destruct Hspec as (Hlen & _ & ->). cbn [d_supplier].
    apply Nat.leb_le in Hlen. rewrite supplier_history_length in Hlen.
    split; [exact Hlen | exact Hin].
  - intros (Hlen & Hin). exists (d_supplier f). split; [| exact Hin].
    apply by_supplier_nonempty. lia.
Qed.

(** C3: a supplier gets a decline finding exactly when it has at least 4
    records and its drop (previous average minus recent average) is above
    2.0; the finding is CRITICAL exactly when the drop is above 5.0 and
    WARNING exactly when 2.0 < drop <= 5.0; a drop of at most 2.0 or fewer
    than 4 records give no finding. *)
Theorem decline_threshold_rule (df : DataFrame) (supplier : string) :
  let drop := purity_drop (supplier_history df supplier) in
  ((exists f, In f (detect_declining_suppliers py_round1 df) /\ d_supplier f = supplier) <->
   4 <= List.length (by_supplier supplier df) /\ (drop >? 2.0)%float = true) /\
  (forall f, In f (detect_declining_suppliers py_round1 df) -> d_supplier f = supplier ->
     (d_severity f = CRITICAL <-> (drop >? 5.0)%float = true) /\
     (d_severity f = WARNING <->
        (drop >? 2.0)%float = true /\ (drop <=? 5.0)%float = true)) /\
  ((drop <=? 2.0)%float = true \/ List.length (by_supplier supplier df) < 4 ->
   forall f, In f (detect_declining_suppliers py_round1 df) -> d_supplier f <> supplier).
Proof.
  cbv zeta.
  assert (Hfwd : forall f, In f (detect_declining_suppliers py_round1 df) ->
            d_supplier f = supplier ->
            4 <= List.length (by_supplier supplier df) /\
            (purity_drop (supplier_history df supplier) >? 2.0)%float = true /\
            d_severity f = if (purity_drop (supplier_history df supplier) >? 5.0)%float
                           then CRITICAL else WARNING).
  { intros f Hin Hs. apply detect_declining_In in Hin. rewrite Hs in Hin.
    destruct Hin as (Hlen & Hin). apply declining_supplier_In in Hin.
    destruct Hin as (_ & Hdrop & ->). cbn [d_severity]. auto. }
  split; [split |].
  - intros (f & Hin & Hs). destruct (Hfwd f Hin Hs) as (Hlen & Hdrop & _). auto.
  - intros (Hlen & Hdrop).
    eexists (mkDecline supplier _ _ _ _ _ _). split.
    + apply detect_declining_In. cbn [d_supplier]. split; [exact Hlen |].
      apply declining_supplier_In. repeat split.
      * apply Nat.leb_le. rewrite supplier_history_length. exact Hlen.
      * exact Hdrop.
    + reflexivity.
  - split.
    + intros f Hin Hs. destruct (Hfwd f Hin Hs) as (_ & Hdrop & ->).
      destruct (FloatFacts.ltb_true_not_nan _ _ Hdrop) as [Hn2 Hnd].
      assert (Hn5 : is_nan 5.0%float = false) by reflexivity.
      rewrite (FloatFacts.leb_negb_ltb _ _ Hnd Hn5).
      unfold PyFloat.gt in *.
      destruct (5.0 <? purity_drop (supplier_history df supplier))%float; cbn;
        intuition congruence.
    + intros Hno f Hin Hs. destruct (Hfwd f Hin Hs) as (Hlen & Hdrop & _).
      destruct Hno as [Hle | Hlt]; [| lia].
      apply FloatFacts.leb_true_ltb_false in Hle. unfold PyFloat.gt in Hdrop. congruence.
Qed.

(** C9: each detector emits at most one finding per distinct supplier name. *)
Theorem one_finding_per_supplier (df : DataFrame) :
  NoDup (map d_supplier (detect_declining_suppliers py_round1 df)) /\
  NoDup (map v_supplier (detect_batch_variance py_round1 df)).
Proof.
  split; apply flat_map_keyed_NoDup; try apply unique_NoDup.
  - intros k f Hin. apply declining_supplier_In in Hin. now destruct Hin as (_ & _ & ->).
  - apply declining_supplier_length.
  - intros k f. unfold variance_supplier. cbv zeta.
    destruct (3 <=? _)%nat; [| contradiction].
    destruct (_ >? 5.0)%float; [| contradiction].
    intros [<- | []]. reflexivity.
  - intros k. unfold variance_supplier. cbv zeta.
    destruct (3 <=? _)%nat; [| cbn; lia].
    destruct (_ >? 5.0)%float; cbn; lia.
Qed.

(** C2, as the code has it: a supplier that passes the 4-record gate always
    has its previous average taken over the records present at positions
    [3,6) of its history, between one and three of them; the fallback to
    the recent average belongs to histories of at most 3 records, which the
    gate excludes; and the detector reports such a supplier exactly when
    the mean of that window exceeds the recent average by more than 2.0,
    also when the supplier has fewer than 7 records. *)
Theorem previous_avg_window (df : DataFrame) (supplier : string) :
  4 <= List.length (by_supplier supplier df) ->
  previous_avg (supplier_history df supplier)
  = Series.mean (map purity (iloc 3 6 (supplier_history df supplier))) /\
  List.length (iloc 3 6 (supplier_history df supplier))
  = Nat.min 3 (List.length (by_supplier supplier df) - 3) /\
  1 <= List.length (iloc 3 6 (supplier_history df supplier)) <= 3 /\
  (forall h : DataFrame, List.length h <= 3 -> previous_avg h = recent_avg h) /\
  ((exists f, In f (detect_declining_suppliers py_round1 df) /\ d_supplier f = supplier) <->
   ((Series.mean (map purity (iloc 3 6 (supplier_history df supplier)))
     - recent_avg (supplier_history df supplier)) >? 2.0)%float = true).
Proof.
  intros Hlen.
  assert (Hhist : 4 <= List.length (supplier_history df supplier))
    by (now rewrite supplier_history_length).
  assert (Hwin : List.length (iloc 3 6 (supplier_history df supplier))
                 = Nat.min 3 (List.length (by_supplier supplier df) - 3)).
  { unfold iloc. now rewrite length_firstn, length_skipn, supplier_history_length. }
  assert (Hprev : previous_avg (supplier_history df supplier)
                  = Series.mean (map purity (iloc 3 6 (supplier_history df supplier)))).
  { unfold previous_avg.
    destruct (Nat.ltb_spec 3 (List.length (supplier_history df supplier)));
      [reflexivity | lia]. }
  split; [exact Hprev |]. split; [exact Hwin |]. split; [lia |]. split.
  - intros h Hh. unfold previous_avg.
    destruct (Nat.ltb_spec 3 (List.length h)); [lia | reflexivity].
  - rewrite <- Hprev. fold (purity_drop (supplier_history df supplier)). split.
    + intros (f & Hin & Hs). apply detect_declining_In in Hin. rewrite Hs in Hin.
      destruct Hin as (_ & Hin). apply declining_supplier_In in Hin.
      now destruct Hin as (_ & Hdrop & _).
    + intros Hdrop. eexists (mkDecline supplier _ _ _ _ _ _). split; [| reflexivity].
      apply detect_declining_In. cbn [d_supplier]. split; [exact Hlen |].
      apply declining_supplier_In. repeat split; [| exact Hdrop].
      now apply Nat.leb_le.
Qed.

(** *** Variance analyzer *)

Lemma variance_supplier_In (df : DataFrame) (k : string) (f : VarianceFinding) :
  In f (variance_supplier py_round1 df k) <->
  (3 <=? List.length (by_supplier k df))%nat = true /\
  (range_purity (by_supplier k df) >? 5.0)%float = true /\
  f = {| v_supplier := k;
         v_peptide := first_peptide (by_supplier k df);
         v_mean := py_round1 (Series.mean (map purity (by_supplier k df)));
         v_std_dev := py_round1 (Series.std (map purity (by_supplier k df)));
         v_range := py_round1 (range_purity (by_supplier k df));
         v_batches := List.length (by_supplier k df);
         v_severity := WARNING |}.
Proof.
  unfold variance_supplier. cbv zeta.
  destruct (3 <=? List.length (by_supplier k df))%nat; [| cbn; intuition discriminate].
  destruct (_ >? 5.0)%float; cbn; [| intuition discriminate].
  intuition congruence.
Qed.

Lemma detect_variance_In (df : DataFrame) (f : VarianceFinding) :
  In f (detect_batch_variance py_round1 df) <->
  In f (variance_supplier py_round1 df (v_supplier f)).
Proof.
  unfold detect_batch_variance. rewrite in_flat_map. split.
  - intros (k & _ & Hin).
    pose proof Hin as Hspec. apply variance_supplier_In in Hspec.
    destruct Hspec as (_ & _ & ->). exact Hin.
  - intros Hin. exists (v_supplier f). split; [| exact Hin].
    apply variance_supplier_In in Hin. destruct Hin as (Hlen & _).
    apply Nat.leb_le in Hlen. apply by_supplier_nonempty. lia.
Qed.

(** C4: a supplier gets a variance finding exactly when it has at least 3
    records and the max-min range of its purities is above 5.0; a range
    equal to 5.0 gives none; every variance finding is a WARNING. *)
Theorem variance_threshold_rule (df : DataFrame) (supplier : string) :
  ((exists f, In f (detect_batch_variance py_round1 df) /\ v_supplier f = supplier) <->
   3 <= List.length (by_supplier supplier df) /\
   (range_purity (by_supplier supplier df) >? 5.0)%float = true) /\
  ((range_purity (by_supplier supplier df) =? 5.0)%float = true ->
   forall f, In f (detect_batch_variance py_round1 df) -> v_supplier f <> supplier) /\
  (forall f, In f (detect_batch_variance py_round1 df) ->
   v_severity f = WARNING /\ v_severity f <> CRITICAL).
Proof.
  split; [split | split].
  - intros (f & Hin & Hs). apply detect_variance_In in Hin. rewrite Hs in Hin.
    apply variance_supplier_In in Hin. destruct Hin as (Hlen & Hrange & _).
    apply Nat.leb_le in Hlen. auto.
  - intros (Hlen & Hrange).
    eexists (mkVariance supplier _ _ _ _ _ _). split; [| reflexivity].
    apply detect_variance_In. cbn [v_supplier].
    apply variance_supplier_In. repeat split; [now apply Nat.leb_le | exact Hrange].
  - intros Heq f Hin Hs. apply detect_variance_In in Hin. rewrite Hs in Hin.
    apply variance_supplier_In in Hin. destruct Hin as (_ & Hrange & _).
    apply FloatFacts.eqb_true_ltb_false in Heq. unfold PyFloat.gt in Hrange. congruence.
  - intros f Hin. apply detect_variance_In in Hin.
    apply variance_supplier_In in Hin. destruct Hin as (_ & _ & ->).
    cbn. split; [reflexivity | discriminate].
Qed.

(** *** Trend aggregator *)

Lemma trend_peptide_In (df : DataFrame) (k : string) (item : string * TrendEntry) :
  In item (trend_peptide py_round1 df k) <->
  (5 <=? List.length (by_peptide k df))%nat = true /\
  item = (k, {| t_avg_purity := py_round1 (Series.mean (map purity (by_peptide k df)));
                t_trend := trend_of (by_peptide k df);
                t_sample_count := List.length (by_peptide k df) |}).
Proof.
  unfold trend_peptide. cbv zeta.
  destruct (5 <=? List.length (by_peptide k df))%nat; cbn; [| intuition discriminate].
  intuition congruence.
Qed.

Lemma analyze_market_trends_In (df : DataFrame) (item : string * TrendEntry) :
  In item (analyze_market_trends py_round1 df) <->
  In item (trend_peptide py_round1 df (fst item)).
Proof.
  unfold analyze_market_trends. rewrite in_flat_map. split.
  - intros (k & _ & Hin).
    pose proof Hin as Hspec. apply trend_peptide_In in Hspec.
    destruct Hspec as (_ & ->). exact Hin.
  - intros Hin. exists (fst item). split; [| exact Hin].
    apply trend_peptide_In in Hin. destruct Hin as (Hlen & _).
    apply Nat.leb_le in Hlen. apply by_peptide_nonempty. lia.
Qed.

(** The dict has one entry per key. *)
Lemma analyze_market_trends_keys (df : DataFrame) :
  NoDup (map fst (analyze_market_trends py_round1 df)).
Proof.
  apply flat_map_keyed_NoDup; [apply unique_NoDup | |].
  - intros k item Hin. apply trend_peptide_In in Hin. now destruct Hin as (_ & ->).
  - intros k. unfold trend_peptide. cbv zeta. destruct (5 <=? _)%nat; cbn; lia.
Qed.

(** C6: a product category has an entry exactly when it has at least 5
    records in the frame; on the category's rows in frame order, the trend
    is "improving" exactly when the mean purity of the first 3 is above the
    mean purity of the last 3, "declining" otherwise, a tie included. *)
Theorem market_trend_rule (df : DataFrame) (peptide : string) :
  let recent := Series.mean (map purity (firstn 3 (by_peptide peptide df))) in
  let older :=
    Series.mean (map purity (skipn (List.length (by_peptide peptide df) - 3)
                                   (by_peptide peptide df))) in
  ((exists e, In (peptide, e) (analyze_market_trends py_round1 df)) <->
   5 <= List.length (by_peptide peptide df)) /\
  (forall e, In (peptide, e) (analyze_market_trends py_round1 df) ->
     (t_trend e = "improving"%string <-> (recent >? older)%float = true) /\
     (t_trend e = "declining"%string <-> (recent >? older)%float = false) /\
     ((recent =? older)%float = true -> t_trend e = "declining"%string)).
Proof.
  cbv zeta. split; [split |].
  - intros (e & Hin). apply analyze_market_trends_In in Hin. cbn [fst] in Hin.
    apply trend_peptide_In in Hin. destruct Hin as (Hlen & _). now apply Nat.leb_le.
  - intros Hlen. eexists. apply analyze_market_trends_In. cbn [fst].
    apply trend_peptide_In. split; [now apply Nat.leb_le | reflexivity].
  - intros e Hin. apply analyze_market_trends_In in Hin. cbn [fst] in Hin.
    apply trend_peptide_In in Hin. destruct Hin as (_ & Heq).
    injection Heq as ->. cbn [t_trend]. unfold trend_of, head, tail. cbv zeta.
    split; [| split].
    + destruct (_ >? _)%float; split; congruence.
    + destruct (_ >? _)%float; split; congruence.
    + intros Htie. apply FloatFacts.eqb_true_ltb_false in Htie.
      unfold PyFloat.gt. now rewrite Htie.
Qed.

(** *** Safety scanner *)

Lemma check_endotoxin_cases (row : Row) (st : list string * Severity) :
  check_endotoxin py_str row st = st \/
  (exists c, fst (check_endotoxin py_str row st) = fst st ++ [c]) /\
  (snd (check_endotoxin py_str row st) = WARNING \/
   snd (check_endotoxin py_str row st) = CRITICAL).
Proof.
  unfold check_endotoxin.
  destruct (PyFloat.notna (endotoxin row) && (endotoxin row >? 1.0)%float); [right | now left].
  split; [eexists; reflexivity |].
  cbn [snd]. destruct (endotoxin row >? 2.0)%float; auto.
Qed.

Lemma check_residualTfa_cases (row : Row) (st : list string * Severity) :
  check_residualTfa py_str row st = st \/
  (exists c, fst (check_residualTfa py_str row st) = fst st ++ [c]) /\
  snd (check_residualTfa py_str row st) = WARNING.
Proof.
  unfold check_residualTfa.
  destruct (PyFloat.notna (residualTfa row) && (residualTfa row >? 1.5)%float);
    [right | now left].
  split; [eexists; reflexivity | reflexivity].
Qed.

(** After both checks, an empty [concerns] is the only state that still
    carries the initial INFO. *)
Lemma checks_severity (row : Row) :
  fst (check_residualTfa py_str row (check_endotoxin py_str row ([], INFO))) = [] \/
  snd (check_residualTfa py_str row (check_endotoxin py_str row ([], INFO))) = WARNING \/
  snd (check_residualTfa py_str row (check_endotoxin py_str row ([], INFO))) = CRITICAL.
Proof.
  destruct (check_residualTfa_cases row (check_endotoxin py_str row ([], INFO)))
    as [-> | [_ ->]]; [| now right; left].
  destruct (check_endotoxin_cases row ([], INFO)) as [-> | [_ H]]; [now left | now right].
Qed.

Lemma safety_row_In (row : Row) (f : SafetyFinding) :
  In f (safety_row py_str row) ->
  s_concerns f <> [] /\
  s_concerns f = fst (check_residualTfa py_str row (check_endotoxin py_str row ([], INFO))) /\
  s_severity f = snd (check_residualTfa py_str row (check_endotoxin py_str row ([], INFO))).
Proof.
  unfold safety_row. cbv zeta.
  destruct (fst (check_residualTfa py_str row (check_endotoxin py_str row ([], INFO))))
    as [| c cs] eqn:E; [contradiction |].
  intros [<- | []]. cbn. repeat split. discriminate.
Qed.

(** Every finding of the scanner carries a concern. *)
Lemma safety_findings_have_concern (df : DataFrame) :
  Forall has_concern (detect_safety_concerns py_str df).
Proof.
  apply Forall_forall. intros f Hin.
  apply in_flat_map in Hin. destruct Hin as (row & _ & Hin).
  now apply safety_row_In in Hin.
Qed.

(** C10: every finding of the safety scanner has severity WARNING or
    CRITICAL, never INFO. *)
Theorem safety_severity_never_info (df : DataFrame) (f : SafetyFinding) :
  In f (detect_safety_concerns py_str df) ->
  (s_severity f = WARNING \/ s_severity f = CRITICAL) /\ s_severity f <> INFO.
Proof.
  unfold detect_safety_concerns. rewrite in_flat_map.
  intros (row & _ & Hin).
  apply safety_row_In in Hin. destruct Hin as (Hne & Hc & Hs).
  assert (Hsev : s_severity f = WARNING \/ s_severity f = CRITICAL).
  { rewrite Hs. destruct (checks_severity row) as [Hnil | Hsev]; [| exact Hsev].
    rewrite Hc in Hne. contradiction. }
  split; [exact Hsev |]. destruct Hsev as [-> | ->]; discriminate.
Qed.

(** When the residual-TFA branch runs, the severity it leaves is WARNING,
    whatever the endotoxin branch had set before it. *)
Lemma residualTfa_overwrites (df : DataFrame) (row : Row) :
  In row df ->
  PyFloat.notna (residualTfa row) = true ->
  (residualTfa row >? 1.5)%float = true ->
  exists f, In f (detect_safety_concerns py_str df) /\
            s_tracking_id f = tracking_id row /\ s_severity f = WARNING.
Proof.
  intros Hin Hna Hgt.
  assert (Hst : check_residualTfa py_str row (check_endotoxin py_str row ([], INFO))
                = (fst (check_endotoxin py_str row ([], INFO))
                   ++ [("High residual TFA: " ++ py_str (residualTfa row) ++ "%")%string],
                   WARNING)).
  { unfold check_residualTfa at 1. now rewrite Hna, Hgt. }
  exists (mkSafety (tracking_id row) (supplierName row) (peptideType row)
            (fst (check_endotoxin py_str row ([], INFO))
             ++ [("High residual TFA: " ++ py_str (residualTfa row) ++ "%")%string])
            WARNING).
  split; [| split; reflexivity].
  apply in_flat_map. exists row. split; [exact Hin |].
  unfold safety_row. cbv zeta. rewrite Hst. cbn [fst snd].
  destruct (fst (check_endotoxin py_str row ([], INFO)) ++ _) eqn:E.
  - now apply app_eq_nil in E.
  - left. reflexivity.
Qed.

End DetectorProperties.

(** ** Strings *)

Lemma take_length (n : nat) (s : string) :
  String.length (PyStr.take n s) = Nat.min n (String.length s).
Proof.
  revert s. induction n as [| n IH]; intros [| c s]; cbn; auto.
Qed.

Lemma take_prefix (n : nat) (s : string) :
  exists rest, s = (PyStr.take n s ++ rest)%string.
Proof.
  revert s. induction n as [| n IH]; intros s.
  - exists s. now destruct s.
  - destruct s as [| c s]; [now exists EmptyString |].
    destruct (IH s) as [rest Hrest]. exists rest. cbn. now rewrite <- Hrest.
Qed.

Lemma take_all (n : nat) (s : string) :
  String.length s <= n -> PyStr.take n s = s.
Proof.
  revert s. induction n as [| n IH]; intros [| c s]; cbn; intros Hlen;
    try reflexivity; try lia.
  rewrite IH; [reflexivity | lia].
Qed.

(** ** Alerting and the run *)

Section PipelineProperties.

Variable py_str : float -> string.
Variable py_round1 : float -> float.

Lemma Forall_firstn {A : Type} (P : A -> Prop) (n : nat) (l : list A) :
  Forall P l -> Forall P (firstn n l).
Proof.
  intros H. revert n. induction H as [| x l Hx Hl IH]; intros [| n]; cbn; auto.
Qed.

Lemma critical_issues_In (declining : list DeclineFinding) (safety : list SafetyFinding)
    (i : Issue) :
  In i (critical_issues declining safety) <->
  (exists d, i = DeclineIssue d /\ In d declining /\ d_severity d = CRITICAL) \/
  (exists s, i = SafetyIssue s /\ In s safety /\ s_severity s = CRITICAL).
Proof.
  assert (Hcrit : forall sev, is_critical sev = true <-> sev = CRITICAL)
    by (intros []; cbn; intuition discriminate).
  unfold critical_issues. rewrite in_app_iff, !in_map_iff.
  split.
  - intros [(d & <- & Hd) | (f & <- & Hf)]; apply filter_In in Hd || apply filter_In in Hf.
    + left. exists d. rewrite <- Hcrit. tauto.
    + right. exists f. rewrite <- Hcrit. tauto.
  - intros [(d & -> & Hd & Hsev) | (f & -> & Hf & Hsev)].
    + left. exists d. rewrite filter_In, Hcrit. tauto.
    + right. exists f. rewrite filter_In, Hcrit. tauto.
Qed.

Lemma critical_issues_have_text (declining : list DeclineFinding)
    (safety : list SafetyFinding) :
  Forall has_concern safety -> Forall issue_has_text (critical_issues declining safety).
Proof.
  intros Hsafe. apply Forall_forall. intros i Hin.
  apply critical_issues_In in Hin.
  destruct Hin as [(d & -> & _) | (f & -> & Hf & _)]; cbn; [exact I |].
  rewrite Forall_forall in Hsafe. now apply Hsafe.
Qed.

(** The loop over the slice raises nothing when each finding has a text,
    and renders the findings one for one, in order. *)
Lemma section_blocks_total (issues : list Issue) :
  Forall issue_has_text issues ->
  exists blocks, section_blocks py_str issues = ret blocks /\
                 Forall2 (renders py_str) issues blocks.
Proof.
  induction 1 as [| issue rest Htext _ (blocks & Hblocks & Hrender)].
  - exists []. split; [reflexivity | constructor].
  - assert (Hc : exists text, concern_text py_str issue = ret text).
    { destruct issue as [d | f]; cbn; [eexists; reflexivity |].
      cbn in Htext. unfold has_concern in Htext.
      destruct (s_concerns f); [contradiction | eexists; reflexivity]. }
    destruct Hc as [text Htxt].
    exists (section_of issue text :: blocks). split.
    + cbn [section_blocks]. rewrite Htxt, Hblocks. reflexivity.
    + constructor; [| exact Hrender]. exists text. split; [exact Htxt | reflexivity].
Qed.

(** What a configured dispatcher does: the critical post when there is a
    critical finding, then the summary post, and a normal return. *)
Lemma send_alerts_configured (self : TrendDetector) (url : string)
    (declining : list DeclineFinding) (variance : list VarianceFinding)
    (safety : list SafetyFinding) (insights : string) (total_tests : nat) :
  slack_webhook self = Some url -> url <> EmptyString ->
  Forall has_concern safety ->
  exists blocks,
    Forall2 (renders py_str) (firstn 3 (critical_issues declining safety)) blocks /\
    send_alerts py_str self declining variance safety insights total_tests
    = (match critical_issues declining safety with
       | [] => []
       | _ :: _ => [Posted url (BlocksBody (critical_header :: blocks))]
       end ++ [Posted url (summary_body declining safety insights total_tests)],
       inr tt).
Proof.
  intros Hweb Hurl Hsafe.
  destruct (section_blocks_total _
              (Forall_firstn issue_has_text 3 _ (critical_issues_have_text declining _ Hsafe)))
    as (blocks & Hblocks & Hrender).
  exists blocks. split; [exact Hrender |].
  unfold send_alerts. rewrite Hweb.
  destruct url as [| c u]; [congruence |].
  cbv zeta. destruct (critical_issues declining safety) as [| i rest] eqn:Ecrit.
  - reflexivity.
  - rewrite Hblocks. reflexivity.
Qed.

(** C5: the list of critical findings is the CRITICAL decline findings
    together with the CRITICAL safety findings, and the variance findings
    have no part in what is sent; when that list is not empty the critical
    message renders its first 3 findings at most; and a configured
    dispatcher sends exactly one summary message, however many critical
    findings there are. *)
Theorem alert_dispatch_rule (self : TrendDetector) (url : string)
    (declining : list DeclineFinding) (variance : list VarianceFinding)
    (safety : list SafetyFinding) (insights : string) (total_tests : nat) :
  slack_webhook self = Some url -> url <> EmptyString ->
  Forall has_concern safety ->
  (forall i, In i (critical_issues declining safety) <->
     (exists d, i = DeclineIssue d /\ In d declining /\ d_severity d = CRITICAL) \/
     (exists s, i = SafetyIssue s /\ In s safety /\ s_severity s = CRITICAL)) /\
  (forall variance',
     send_alerts py_str self declining variance' safety insights total_tests
     = send_alerts py_str self declining variance safety insights total_tests) /\
  outcome (send_alerts py_str self declining variance safety insights total_tests) = inr tt /\
  List.length (filter is_summary
     (posted_bodies
        (trace (send_alerts py_str self declining variance safety insights total_tests)))) = 1 /\
  (critical_issues declining safety = [] ->
   posted_bodies (trace (send_alerts py_str self declining variance safety insights total_tests))
   = [summary_body declining safety insights total_tests]) /\
  (critical_issues declining safety <> [] ->
   exists blocks,
     posted_bodies
       (trace (send_alerts py_str self declining variance safety insights total_tests))
     = [BlocksBody (critical_header :: blocks);
        summary_body declining safety insights total_tests] /\
     Forall2 (renders py_str) (firstn 3 (critical_issues declining safety)) blocks /\
     List.length blocks = Nat.min 3 (List.length (critical_issues declining safety)) /\
     List.length blocks <= 3).
Proof.
  intros Hweb Hurl Hsafe.
  destruct (send_alerts_configured self url declining variance safety insights
              total_tests Hweb Hurl Hsafe) as (blocks & Hrender & Hsend).
  split; [apply critical_issues_In |].
  split; [reflexivity |].
  rewrite Hsend. unfold outcome, trace. cbn [fst snd].
  pose proof (Forall2_length Hrender) as Hlen. rewrite length_firstn in Hlen.
  destruct (critical_issues declining safety) as [| i rest]; cbn [app].
  - repeat split; try reflexivity. congruence.
  - repeat split; try reflexivity; try congruence.
    intros _. exists blocks. repeat split; try reflexivity; try exact Hrender; lia.
Qed.

(** C7, as the code has it: the summary message carries the total record
    count, the decline count, the safety count, and the first 500
    characters of the insight brief followed by the marker "...", which is
    appended whatever the length of the brief. *)
Theorem summary_message_content (self : TrendDetector) (url : string)
    (declining : list DeclineFinding) (variance : list VarianceFinding)
    (safety : list SafetyFinding) (insights : string) (total_tests : nat) :
  slack_webhook self = Some url -> url <> EmptyString ->
  Forall has_concern safety ->
  exists text attachment,
    filter is_summary
      (posted_bodies
         (trace (send_alerts py_str self declining variance safety insights total_tests)))
    = [SummaryBody text "#36a64f" attachment] /\
    text = ("📊 Weekly Quality Report: " ++ PyStr.of_nat total_tests ++ " tests, "
            ++ PyStr.of_nat (List.length declining) ++ " declining, "
            ++ PyStr.of_nat (List.length safety) ++ " safety issues")%string /\
    attachment = (PyStr.take 500 insights ++ "...")%string /\
    String.length (PyStr.take 500 insights) = Nat.min 500 (String.length insights) /\
    (exists rest, insights = (PyStr.take 500 insights ++ rest)%string) /\
    (String.length insights <= 500 -> attachment = (insights ++ "...")%string).
Proof.
  intros Hweb Hurl Hsafe.
  destruct (send_alerts_configured self url declining variance safety insights
              total_tests Hweb Hurl Hsafe) as (blocks & _ & Hsend).
  do 2 eexists. rewrite Hsend. unfold trace. cbn [fst].
  split; [| split; [reflexivity | split; [reflexivity |]]].
  - destruct (critical_issues declining safety); reflexivity.
  - split; [apply take_length | split; [apply take_prefix |]].
    intros Hlen. now rewrite take_all.
Qed.

(** C8: when the store returns no record, the run prints its two lines
    around the one query and returns normally: no prompt is sent to the
    text generation service, nothing is posted to the webhook, and the
    detectors have nothing to report. *)
Theorem run_empty_source (w : World) (self : TrendDetector) :
  completed_samples w 7 = [] ->
  run py_str py_round1 w self
  = ([Printed ("[" ++ now w ++ "] Running trend detection...")%string;
      Queried 7;
      Printed "No recent tests found"], inr tt) /\
  outcome (run py_str py_round1 w self) = inr tt /\
  generated_prompts (trace (run py_str py_round1 w self)) = [] /\
  posted_bodies (trace (run py_str py_round1 w self)) = [] /\
  detect_declining_suppliers py_round1 (completed_samples w 7) = [] /\
  detect_batch_variance py_round1 (completed_samples w 7) = [] /\
  detect_safety_concerns py_str (completed_samples w 7) = [].
Proof.
  intros Hempty.
  assert (Hrun : run py_str py_round1 w self
                 = ([Printed ("[" ++ now w ++ "] Running trend detection...")%string;
                     Queried 7;
                     Printed "No recent tests found"], inr tt)).
  { unfold run, fetch_recent_tests. rewrite Hempty. reflexivity. }
  rewrite Hrun, Hempty. repeat split.
Qed.

(** A run on a non-empty frame with a configured webhook: one prompt to the
    text generation service, the critical post when a finding is critical,
    one summary post, and a normal return. *)
Lemma run_configured (w : World) (self : TrendDetector) (url : string) :
  completed_samples w 7 <> [] ->
  slack_webhook self = Some url -> url <> EmptyString ->
  outcome (run py_str py_round1 w self) = inr tt /\
  List.length (generated_prompts (trace (run py_str py_round1 w self))) = 1 /\
  List.length (filter is_summary (posted_bodies (trace (run py_str py_round1 w self)))) = 1.
Proof.
  intros Hne Hweb Hurl.
  assert (Hlen : (List.length (completed_samples w 7) =? 0)%nat = false).
  { destruct (completed_samples w 7); [congruence | reflexivity]. }
  unfold run, fetch_recent_tests, generate_ai_insights.
  set (df := completed_samples w 7) in *.
  destruct (send_alerts_configured self url
              (detect_declining_suppliers py_round1 df)
              (detect_batch_variance py_round1 df)
              (detect_safety_concerns py_str df)
              (claude_reply w
                 (build_prompt py_round1 df (detect_declining_suppliers py_round1 df)
                    (detect_batch_variance py_round1 df) (detect_safety_concerns py_str df)))
              (List.length df) Hweb Hurl (safety_findings_have_concern py_str df))
    as (blocks & _ & Hsend).
  unfold bind, emit, ret, outcome, trace. cbn [fst snd app].
  rewrite Hlen, Hsend. cbn [fst snd app].
  destruct (critical_issues _ _); repeat split.
Qed.

End PipelineProperties.

(** ** The model on concrete frames *)

(** C1: on a record with endotoxin 2.5 (present, above 2.0) and residual
    TFA 2.0 (present, above 1.5) the scanner emits one finding with both
    concerns and severity WARNING, not CRITICAL; the same endotoxin value
    with residual TFA at 1.0 gives CRITICAL. *)
Theorem safety_critical_downgraded :
  forall py_str : float -> string,
    (PyFloat.notna (endotoxin Samples.both_elevated) = true /\
     (endotoxin Samples.both_elevated >? 2.0)%float = true /\
     PyFloat.notna (residualTfa Samples.both_elevated) = true /\
     (residualTfa Samples.both_elevated >? 1.5)%float = true) /\
    map s_severity (detect_safety_concerns py_str [Samples.both_elevated]) = [WARNING] /\
    map (fun f => List.length (s_concerns f))
        (detect_safety_concerns py_str [Samples.both_elevated]) = [2] /\
    map s_severity (detect_safety_concerns py_str [Samples.endotoxin_only]) = [CRITICAL].
Proof.
  intros py_str. repeat split; reflexivity.
Qed.

Lemma safety_severity_never_info_witness :
  In (Samples.safety "PTQ-2" "Acme" CRITICAL)
     (detect_safety_concerns (fun _ => "2.5"%string) [Samples.endotoxin_only]) /\
  ((s_severity (Samples.safety "PTQ-2" "Acme" CRITICAL) = WARNING \/
    s_severity (Samples.safety "PTQ-2" "Acme" CRITICAL) = CRITICAL) /\
   s_severity (Samples.safety "PTQ-2" "Acme" CRITICAL) <> INFO).
Proof.
  assert (Hin : In (Samples.safety "PTQ-2" "Acme" CRITICAL)
                   (detect_safety_concerns (fun _ => "2.5"%string) [Samples.endotoxin_only])).
  { left. reflexivity. }
  split; [exact Hin |].
  exact (safety_severity_never_info (fun _ => "2.5"%string) [Samples.endotoxin_only]
           (Samples.safety "PTQ-2" "Acme" CRITICAL) Hin).
Defined.

(** A supplier with 4 records (fewer than 7): the previous average is the
    purity of the one record at position 3, not the recent average; the drop
    is 9, and a CRITICAL finding is emitted. *)
Lemma short_history_counterexample :
  List.length (by_supplier "Acme" Samples.acme4) = 4 /\
  recent_avg (supplier_history Samples.acme4 "Acme") = 90%float /\
  previous_avg (supplier_history Samples.acme4 "Acme") = 99%float /\
  purity_drop (supplier_history Samples.acme4 "Acme") = 9%float /\
  (forall py_round1 : float -> float,
     map (fun f => (d_supplier f, d_sample_count f, d_severity f))
         (detect_declining_suppliers py_round1 Samples.acme4)
     = [("Acme"%string, 4, CRITICAL)]).
Proof.
  repeat split; reflexivity.
Qed.

Lemma previous_avg_window_witness :
  4 <= List.length (by_supplier "Acme" Samples.acme4) /\
  previous_avg (supplier_history Samples.acme4 "Acme")
  = Series.mean (map purity (iloc 3 6 (supplier_history Samples.acme4 "Acme"))) /\
  List.length (iloc 3 6 (supplier_history Samples.acme4 "Acme")) = 1 /\
  exists f, In f (detect_declining_suppliers Samples.no_round Samples.acme4) /\
            d_supplier f = "Acme"%string.
Proof.
  assert (Hlen : 4 <= List.length (by_supplier "Acme" Samples.acme4)).
  { vm_compute. lia. }
  split; [exact Hlen |].
  destruct (previous_avg_window Samples.no_round Samples.acme4 "Acme" Hlen)
    as (Hprev & Hwin & _ & _ & Hfinding).
  split; [exact Hprev |]. split; [rewrite Hwin; reflexivity |].
  apply Hfinding. reflexivity.
Defined.

(** Two CRITICAL decline findings and two CRITICAL safety findings among
    seven: the critical message renders three of them, and one summary
    follows. *)
Lemma alert_dispatch_rule_witness :
  (slack_webhook Samples.detector = Some Samples.hook /\
   Samples.hook <> EmptyString /\
   Forall has_concern Samples.safety4) /\
  outcome (send_alerts Samples.no_str Samples.detector Samples.declining3 []
                       Samples.safety4 Samples.brief 12) = inr tt /\
  List.length (filter is_summary
     (posted_bodies
        (trace (send_alerts Samples.no_str Samples.detector Samples.declining3 []
                            Samples.safety4 Samples.brief 12)))) = 1.
Proof.
  assert (Hweb : slack_webhook Samples.detector = Some Samples.hook) by reflexivity.
  assert (Hurl : Samples.hook <> EmptyString) by discriminate.
  assert (Hsafe : Forall has_concern Samples.safety4)
    by (repeat constructor; discriminate).
  split; [now repeat split |].
  destruct (alert_dispatch_rule Samples.no_str Samples.detector Samples.hook Samples.declining3 []
              Samples.safety4 Samples.brief 12 Hweb Hurl Hsafe)
    as (_ & _ & Hout & Hone & _).
  split; [exact Hout | exact Hone].
Defined.

(** A brief of two characters is posted with the marker appended. *)
Lemma short_brief_counterexample :
  String.length "ok" <= 500 /\
  (forall py_str : float -> string,
     posted_bodies (trace (send_alerts py_str Samples.detector [] [] [] "ok" 4))
     = [SummaryBody "📊 Weekly Quality Report: 4 tests, 0 declining, 0 safety issues"
                    "#36a64f" "ok..."]) /\
  "ok..."%string <> "ok"%string.
Proof.
  split; [cbn; lia |]. split; [intros py_str; reflexivity | discriminate].
Qed.

Lemma summary_message_content_witness :
  (slack_webhook Samples.detector = Some Samples.hook /\
   Samples.hook <> EmptyString /\
   Forall has_concern Samples.safety4) /\
  exists text attachment,
    filter is_summary
      (posted_bodies
         (trace (send_alerts Samples.no_str Samples.detector Samples.declining3 []
                             Samples.safety4 Samples.brief 12)))
    = [SummaryBody text "#36a64f" attachment] /\
    text = "📊 Weekly Quality Report: 12 tests, 3 declining, 4 safety issues"%string /\
    attachment = "Two suppliers need a call...."%string.
Proof.
  assert (Hweb : slack_webhook Samples.detector = Some Samples.hook) by reflexivity.
  assert (Hurl : Samples.hook <> EmptyString) by discriminate.
  assert (Hsafe : Forall has_concern Samples.safety4)
    by (repeat constructor; discriminate).
  split; [now repeat split |].
  destruct (summary_message_content Samples.no_str Samples.detector Samples.hook
              Samples.declining3 [] Samples.safety4 Samples.brief 12 Hweb Hurl Hsafe)
    as (text & attachment & Hposts & Htext & Hatt & _).
  exists text, attachment. split; [exact Hposts |].
  split; [rewrite Htext | rewrite Hatt]; reflexivity.
Defined.

Lemma run_empty_source_witness :
  completed_samples Samples.quiet_world 7 = [] /\
  run Samples.no_str Samples.no_round Samples.quiet_world Samples.detector
  = ([Printed "[2024-05-06 06:00:00] Running trend detection...";
      Queried 7;
      Printed "No recent tests found"], inr tt).
Proof.
  assert (Hempty : completed_samples Samples.quiet_world 7 = []) by reflexivity.
  split; [exact Hempty |].
  exact (proj1 (run_empty_source Samples.no_str Samples.no_round Samples.quiet_world
                  Samples.detector Hempty)).
Defined.

(** ** Threshold boundaries *)

Example decline_at_2_0 :
  purity_drop (supplier_history (Samples.drop_frame 92) "Acme") = 2%float /\
  detect_declining_suppliers Samples.no_round (Samples.drop_frame 92) = [].
Proof. split; reflexivity. Qed.

Example decline_above_2_0 :
  purity_drop (supplier_history (Samples.drop_frame 92.5) "Acme") = 2.5%float /\
  map d_severity (detect_declining_suppliers Samples.no_round (Samples.drop_frame 92.5)) = [WARNING].
Proof. split; reflexivity. Qed.

Example decline_at_5_0 :
  purity_drop (supplier_history (Samples.drop_frame 95) "Acme") = 5%float /\
  map d_severity (detect_declining_suppliers Samples.no_round (Samples.drop_frame 95)) = [WARNING].
Proof. split; reflexivity. Qed.

Example decline_above_5_0 :
  purity_drop (supplier_history (Samples.drop_frame 95.5) "Acme") = 5.5%float /\
  map d_severity (detect_declining_suppliers Samples.no_round (Samples.drop_frame 95.5)) = [CRITICAL].
Proof. split; reflexivity. Qed.

Example decline_three_records :
  detect_declining_suppliers Samples.no_round
    (Samples.newest_first "Acme" "BPC157" [99; 90; 90]%float) = [].
Proof. reflexivity. Qed.

(** Purities 99, 98, 97, 85, 84, 83 from the oldest record to the newest:
    the first three of the history are the oldest, so the drop is
    84 - 98 and nothing is reported. *)
Example decline_oldest_first :
  recent_avg (supplier_history
                (Samples.newest_first "Acme" "BPC157" [83; 84; 85; 97; 98; 99]%float) "Acme")
  = 98%float /\
  previous_avg (supplier_history
                  (Samples.newest_first "Acme" "BPC157" [83; 84; 85; 97; 98; 99]%float) "Acme")
  = 84%float /\
  detect_declining_suppliers Samples.no_round
    (Samples.newest_first "Acme" "BPC157" [83; 84; 85; 97; 98; 99]%float) = [].
Proof. repeat split; reflexivity. Qed.

Example variance_range_10 :
  map (fun f => (v_mean f, v_range f, v_batches f, v_severity f))
      (detect_batch_variance Samples.no_round
         (Samples.newest_first "Beta" "TB500" [90; 95; 100]%float))
  = [(95%float, 10%float, 3, WARNING)].
Proof. reflexivity. Qed.

Example variance_range_5 :
  range_purity (Samples.newest_first "Beta" "TB500" [90; 92.5; 95]%float) = 5%float /\
  detect_batch_variance Samples.no_round
    (Samples.newest_first "Beta" "TB500" [90; 92.5; 95]%float) = [].
Proof. split; reflexivity. Qed.

Example variance_two_records :
  detect_batch_variance Samples.no_round
    (Samples.newest_first "Beta" "TB500" [90; 100]%float) = [].
Proof. reflexivity. Qed.

(** Five records of one category, newest first: the first three average
    95 and the last three 95 as well, a tie. *)
Example trend_tie_declining :
  map (fun item => (fst item, t_trend (snd item), t_sample_count (snd item)))
      (analyze_market_trends Samples.no_round
         (Samples.newest_first "Beta" "TB500" [90; 95; 100; 95; 90]%float))
  = [("TB500"%string, "declining"%string, 5)].
Proof. reflexivity. Qed.

Example trend_improving :
  map (fun item => (fst item, t_trend (snd item)))
      (analyze_market_trends Samples.no_round
         (Samples.newest_first "Beta" "TB500" [99; 98; 97; 90; 90]%float))
  = [("TB500"%string, "improving"%string)].
Proof. reflexivity. Qed.

(** The critical message of the sample findings: the two CRITICAL decline
    findings first, then the first CRITICAL safety finding; the fourth
    critical finding is left out. *)
Example critical_message_cap :
  List.length (critical_issues Samples.declining3 Samples.safety4) = 4 /\
  posted_bodies
    (trace (send_alerts (fun _ => "14.0"%string) Samples.detector Samples.declining3 []
                        Samples.safety4 Samples.brief 12))
  = [BlocksBody
       [HeaderBlock "🚨 CRITICAL QUALITY ALERTS";
        SectionBlock ("*Acme*" ++ PyStr.newline ++ "Quality drop: 14.0%");
        SectionBlock ("*Gamma*" ++ PyStr.newline ++ "Quality drop: 14.0%");
        SectionBlock ("*Acme*" ++ PyStr.newline ++ "High endotoxin: 2.5 EU/mg")];
     SummaryBody "📊 Weekly Quality Report: 12 tests, 3 declining, 4 safety issues"
                 "#36a64f" "Two suppliers need a call...."].
Proof. split; reflexivity. Qed.

(** A CRITICAL safety finding with an empty concern list makes the loop
    raise before anything is posted. *)
Example empty_concerns_raise :
  send_alerts Samples.no_str Samples.detector []
    [] [ {| s_tracking_id := "PTQ-0"; s_supplier := "Acme"; s_peptide := "TB500";
            s_concerns := []; s_severity := CRITICAL |} ] Samples.brief 1
  = ([], inl IndexError).
Proof. reflexivity. Qed.

(** An unset or empty webhook target: nothing is posted. *)
Example no_webhook_no_post :
  send_alerts Samples.no_str {| slack_webhook := None |} Samples.declining3 []
              Samples.safety4 Samples.brief 12 = ([], inr tt) /\
  send_alerts Samples.no_str {| slack_webhook := Some EmptyString |} Samples.declining3 []
              Samples.safety4 Samples.brief 12 = ([], inr tt).
Proof. split; reflexivity. Qed.

(** * Further properties of the detectors *)

(** ** Sorting by completion time *)

Lemma insert_createdAt_perm (r : Row) (l : DataFrame) :
  Permutation (insert_createdAt r l) (r :: l).
Proof.
  induction l as [| h t IH]; cbn; [reflexivity |].
  destruct (createdAt r <=? createdAt h)%Z; [reflexivity |].
  rewrite IH. apply perm_swap.
Qed.

Lemma sort_values_createdAt_perm (df : DataFrame) :
  Permutation (sort_values_createdAt df) df.
Proof.
  induction df as [| r t IH]; cbn; [reflexivity |].
  rewrite insert_createdAt_perm. now constructor.
Qed.

Lemma insert_createdAt_sorted (r : Row) (l : DataFrame) :
  Sorted createdAt_le l -> Sorted createdAt_le (insert_createdAt r l).
Proof.
  induction 1 as [| h t Hsorted IH Hhd]; cbn.
  - repeat constructor.
  - destruct (Z.leb_spec (createdAt r) (createdAt h)) as [Hle | Hgt].
    + constructor; [now constructor | now constructor].
    + constructor; [exact IH |].
      destruct t as [| h' t']; cbn.
      * constructor. unfold createdAt_le. lia.
      * destruct (Z.leb_spec (createdAt r) (createdAt h')).
        -- constructor. unfold createdAt_le. lia.
        -- constructor. now inversion Hhd.
Qed.

Lemma sort_values_createdAt_sorted (df : DataFrame) :
  StronglySorted createdAt_le (sort_values_createdAt df).
Proof.
  apply Sorted_StronglySorted.
  - intros a b c. unfold createdAt_le. lia.
  - induction df as [| r t IH]; cbn; [constructor |].
    now apply insert_createdAt_sorted.
Qed.

Lemma by_supplier_In (k : string) (df : DataFrame) (r : Row) :
  In r (by_supplier k df) <-> In r df /\ supplierName r = k.
Proof.
  unfold by_supplier. rewrite filter_In, String.eqb_eq. reflexivity.
Qed.

Lemma supplier_history_In (df : DataFrame) (k : string) (r : Row) :
  In r (supplier_history df k) <-> In r df /\ supplierName r = k.
Proof.
  rewrite <- by_supplier_In. unfold supplier_history. split; intros H.
  - eapply Permutation_in; [apply sort_values_createdAt_perm | exact H].
  - eapply Permutation_in; [symmetry; apply sort_values_createdAt_perm | exact H].
Qed.

(** X1: the history on which the decline detector takes its windows is the
    supplier's rows of the frame, each once and no other, oldest first. *)
Theorem supplier_history_sorted (df : DataFrame) (supplier : string) :
  Permutation (supplier_history df supplier) (by_supplier supplier df) /\
  StronglySorted createdAt_le (supplier_history df supplier) /\
  (forall r, In r (supplier_history df supplier) <-> In r df /\ supplierName r = supplier).
Proof.
  split; [apply sort_values_createdAt_perm |].
  split; [apply sort_values_createdAt_sorted |].
  intros r. apply supplier_history_In.
Qed.

(** ** Facts on filters and keyed loops *)

Lemma by_supplier_idem (k : string) (df : DataFrame) :
  by_supplier k (by_supplier k df) = by_supplier k df.
Proof.
  unfold by_supplier. induction df as [| r t IH]; cbn; [reflexivity |].
  destruct (String.eqb (supplierName r) k) eqn:E; cbn; [| exact IH].
  now rewrite E, IH.
Qed.

Lemma filter_perm {A : Type} (p : A -> bool) (l l' : list A) :
  Permutation l l' -> Permutation (filter p l) (filter p l').
Proof.
  induction 1 as [| x l l' _ IH | x y l | l l' l'' _ IH1 _ IH2]; cbn.
  - constructor.
  - destruct (p x); [now constructor | exact IH].
  - destruct (p x), (p y); try reflexivity. apply perm_swap.
  - now transitivity (filter p l').
Qed.

(** Restricting a frame to a supplier keeps its timestamps distinct. *)
Lemma by_supplier_distinct_createdAt (k : string) (df : DataFrame) :
  NoDup (map createdAt df) -> NoDup (map createdAt (by_supplier k df)).
Proof.
  unfold by_supplier. induction df as [| r rows IH]; cbn; [auto |].
  intros Hdistinct. apply NoDup_cons_iff in Hdistinct. destruct Hdistinct as [Hfresh Hrows].
  destruct (String.eqb (supplierName r) k); cbn; [| now apply IH].
  apply NoDup_cons; [| now apply IH].
  rewrite in_map_iff. intros (r' & Hsame & Hr'). apply filter_In in Hr'.
  apply Hfresh. rewrite <- Hsame. apply in_map. tauto.
Qed.

Lemma NoDup_map_inj_in {A B : Type} (f : A -> B) (l : list A) (a b : A) :
  NoDup (map f l) -> In a l -> In b l -> f a = f b -> a = b.
Proof.
  induction l as [| x t IH]; cbn; [contradiction |].
  intros Hnd Ha Hb Hf. inversion Hnd as [| ? ? Hnotin Hnd']; subst.
  destruct Ha as [-> | Ha], Hb as [-> | Hb]; auto.
  - exfalso. apply Hnotin. rewrite Hf. now apply in_map.
  - exfalso. apply Hnotin. rewrite <- Hf. now apply in_map.
Qed.

(** Two ascending arrangements of the same rows coincide when no two rows
    share a timestamp. *)
Lemma sorted_perm_unique (l l' : DataFrame) :
  StronglySorted createdAt_le l -> StronglySorted createdAt_le l' ->
  Permutation l l' -> NoDup (map createdAt l) -> l = l'.
Proof.
  intros Hs. revert l'.
  induction Hs as [| a t Hs IH Ha]; intros l' Hs' Hperm Hnd.
  - apply Permutation_nil in Hperm. now subst.
  - destruct Hs' as [| a' t' Hs' Ha'].
    + apply Permutation_sym, Permutation_nil in Hperm. discriminate.
    + assert (Haa : a = a').
      { assert (Hin : In a (a' :: t')) by (eapply Permutation_in; [exact Hperm | now left]).
        assert (Hin' : In a' (a :: t))
          by (eapply Permutation_in; [symmetry; exact Hperm | now left]).
        destruct Hin as [-> | Hin]; [reflexivity |].
        destruct Hin' as [-> | Hin']; [reflexivity |].
        rewrite Forall_forall in Ha, Ha'.
        pose proof (Ha _ Hin') as H1. pose proof (Ha' _ Hin) as H2.
        unfold createdAt_le in H1, H2.
        apply (NoDup_map_inj_in createdAt (a :: t)); cbn; auto. lia. }
      subst a'. f_equal. apply IH; [exact Hs' | | now inversion Hnd].
      now apply Permutation_cons_inv in Hperm.
Qed.

(** A loop that appends, for each key passing a test, one item carrying that
    key: the keys of its output are the passing keys, in loop order. *)
Lemma flat_map_keyed_filter {K A : Type} (key : A -> K) (step : K -> list A)
    (test : K -> bool) (ks : list K) :
  (forall k, test k = true -> exists a, step k = [a] /\ key a = k) ->
  (forall k, test k = false -> step k = []) ->
  map key (flat_map step ks) = filter test ks.
Proof.
  intros Hyes Hno. induction ks as [| k ks IH]; cbn; [reflexivity |].
  rewrite map_app, IH. destruct (test k) eqn:E.
  - destruct (Hyes k E) as (a & -> & <-). reflexivity.
  - now rewrite (Hno k E).
Qed.

(** ** Decline detector and variance analyzer, continued *)

Section SupplierDetectors.

Variable py_round1 : float -> float.

(** The detector's test on one supplier. *)
Lemma declining_supplier_test (df : DataFrame) (k : string) :
  ((4 <=? List.length (by_supplier k df))%nat
   && (purity_drop (supplier_history df k) >? 2.0)%float = true ->
   exists f, declining_supplier py_round1 df k = [f] /\ d_supplier f = k) /\
  ((4 <=? List.length (by_supplier k df))%nat
   && (purity_drop (supplier_history df k) >? 2.0)%float = false ->
   declining_supplier py_round1 df k = []).
Proof.
  unfold declining_supplier, purity_drop. cbv zeta.
  rewrite supplier_history_length.
  destruct (4 <=? List.length (by_supplier k df))%nat; cbn [andb].
  - destruct (_ >? 2.0)%float; split; intros H; try discriminate; eauto.
  - split; intros H; [discriminate | reflexivity].
Qed.

Lemma variance_supplier_test (df : DataFrame) (k : string) :
  ((3 <=? List.length (by_supplier k df))%nat
   && (range_purity (by_supplier k df) >? 5.0)%float = true ->
   exists f, variance_supplier py_round1 df k = [f] /\ v_supplier f = k) /\
  ((3 <=? List.length (by_supplier k df))%nat
   && (range_purity (by_supplier k df) >? 5.0)%float = false ->
   variance_supplier py_round1 df k = []).
Proof.
  unfold variance_supplier. cbv zeta.
  destruct (3 <=? List.length (by_supplier k df))%nat; cbn [andb].
  - destruct (_ >? 5.0)%float; split; intros H; try discriminate; eauto.
  - split; intros H; [discriminate | reflexivity].
Qed.

(** X2: a decline finding reports the number of records of its supplier in
    the frame, at least 4, and the product type of that supplier's oldest
    record. *)
Theorem decline_finding_fields (df : DataFrame) (f : DeclineFinding) :
  In f (detect_declining_suppliers py_round1 df) ->
  d_sample_count f = List.length (by_supplier (d_supplier f) df) /\
  4 <= d_sample_count f /\
  exists oldest,
    In oldest df /\ supplierName oldest = d_supplier f /\
    d_peptide f = peptideType oldest /\
    forall r, In r df -> supplierName r = d_supplier f ->
              (createdAt oldest <= createdAt r)%Z.
Proof.
  intros Hin. apply detect_declining_In in Hin. destruct Hin as (Hlen & Hin).
  apply declining_supplier_In in Hin. destruct Hin as (_ & _ & Hf).
  set (k := d_supplier f) in *.
  assert (Hcount : d_sample_count f = List.length (by_supplier k df)).
  { rewrite Hf. cbn. apply supplier_history_length. }
  split; [exact Hcount |]. split; [lia |].
  pose proof (sort_values_createdAt_sorted (by_supplier k df)) as Hsorted.
  pose proof (supplier_history_In df k) as Hmem.
  pose proof (supplier_history_length df k) as Hhl.
  assert (Hpep : d_peptide f = first_peptide (supplier_history df k))
    by (rewrite Hf; reflexivity).
  clear Hf. unfold supplier_history in *.
  destruct (sort_values_createdAt (by_supplier k df)) as [| r0 rest];
    [cbn in Hhl; lia |].
  exists r0.
  destruct (proj1 (Hmem r0) (or_introl eq_refl)) as [Hin0 Hk0].
  repeat split; auto.
  intros r Hr Hk. inversion Hsorted as [| ? ? _ Hall]; subst.
  destruct (proj2 (Hmem r) (conj Hr Hk)) as [<- | Hrest]; [lia |].
  rewrite Forall_forall in Hall. exact (Hall r Hrest).
Qed.

(** X3: what a detector reports on a supplier depends on that supplier's
    rows only: it is what the detector reports on the frame restricted to
    the supplier. *)
Theorem detectors_per_supplier (df : DataFrame) :
  (forall f, In f (detect_declining_suppliers py_round1 df) <->
             In f (detect_declining_suppliers py_round1 (by_supplier (d_supplier f) df))) /\
  (forall f, In f (detect_batch_variance py_round1 df) <->
             In f (detect_batch_variance py_round1 (by_supplier (v_supplier f) df))).
Proof.
  split; intros f.
  - rewrite !detect_declining_In, by_supplier_idem.
    unfold declining_supplier, supplier_history. now rewrite by_supplier_idem.
  - rewrite !detect_variance_In.
    unfold variance_supplier. now rewrite by_supplier_idem.
Qed.

(** X4: the suppliers reported by each detector are the distinct suppliers
    of the frame that pass its test, in the order of their first row. *)
Theorem detector_output_order (df : DataFrame) :
  map d_supplier (detect_declining_suppliers py_round1 df)
  = filter (fun k => (4 <=? List.length (by_supplier k df))%nat
                     && (purity_drop (supplier_history df k) >? 2.0)%float)
           (unique (map supplierName df)) /\
  map v_supplier (detect_batch_variance py_round1 df)
  = filter (fun k => (3 <=? List.length (by_supplier k df))%nat
                     && (range_purity (by_supplier k df) >? 5.0)%float)
           (unique (map supplierName df)).
Proof.
  split; apply flat_map_keyed_filter; intros k.
  - apply (proj1 (declining_supplier_test df k)).
  - apply (proj2 (declining_supplier_test df k)).
  - apply (proj1 (variance_supplier_test df k)).
  - apply (proj2 (variance_supplier_test df k)).
Qed.

(** X5: when no two rows of the frame share a timestamp, the decline
    findings do not depend on the order in which the store returns the
    rows. *)
Theorem decline_order_independent (df df' : DataFrame) :
  Permutation df df' -> NoDup (map createdAt df) ->
  forall f, In f (detect_declining_suppliers py_round1 df) <->
            In f (detect_declining_suppliers py_round1 df').
Proof.
  intros Hperm Hnd f.
  assert (Hby : forall k, Permutation (by_supplier k df) (by_supplier k df'))
    by (intros k; now apply filter_perm).
  assert (Hhist : forall k, supplier_history df k = supplier_history df' k).
  { intros k. unfold supplier_history.
    apply sorted_perm_unique; try apply sort_values_createdAt_sorted.
    - rewrite !sort_values_createdAt_perm. apply Hby.
    - apply (Permutation_NoDup (l := map createdAt (by_supplier k df))).
      + apply Permutation_map. symmetry. apply sort_values_createdAt_perm.
      + now apply by_supplier_distinct_createdAt. }
  rewrite !detect_declining_In.
  rewrite (Permutation_length (Hby (d_supplier f))).
  unfold declining_supplier. now rewrite Hhist.
Qed.

(** X6: a variance finding is a WARNING that reports the number of
    records of its supplier in the frame, at least 3, and the product type
    of the supplier's first row in frame order (not of its oldest record). *)
Theorem variance_finding_fields (df : DataFrame) (f : VarianceFinding) :
  In f (detect_batch_variance py_round1 df) ->
  v_severity f = WARNING /\
  v_batches f = List.length (by_supplier (v_supplier f) df) /\
  3 <= v_batches f /\
  exists first before after,
    df = before ++ first :: after /\
    supplierName first = v_supplier f /\
    (forall r, In r before -> supplierName r <> v_supplier f) /\
    v_peptide f = peptideType first.
Proof.
  intros Hin. apply detect_variance_In in Hin.
  apply variance_supplier_In in Hin. destruct Hin as (Hlen & _ & Hf).
  apply Nat.leb_le in Hlen.
  assert (Hpep : v_peptide f = first_peptide (by_supplier (v_supplier f) df))
    by (rewrite Hf; reflexivity).
  assert (Hcount : v_batches f = List.length (by_supplier (v_supplier f) df))
    by (rewrite Hf; reflexivity).
  assert (Hsev : v_severity f = WARNING) by (rewrite Hf; reflexivity).
  clear Hf. set (k := v_supplier f) in *. clearbody k.
  split; [exact Hsev |]. split; [exact Hcount |]. split; [lia |].
  clear Hcount Hsev. revert Hlen Hpep. unfold by_supplier, first_peptide.
  induction df as [| r t IH]; cbn [filter]; [cbn; lia |].
  destruct (String.eqb_spec (supplierName r) k) as [Hk | Hk].
  - intros _ Hpep. exists r, [], t.
    split; [reflexivity |]. split; [exact Hk |]. split; [intros r' [] | exact Hpep].
  - intros Hlen Hpep. destruct (IH Hlen Hpep) as (first & before & after & -> & Hs & Hb & Hp).
    exists first, (r :: before), after.
    split; [reflexivity |]. split; [exact Hs |]. split; [| exact Hp].
    intros r' [<- | Hr']; auto.
Qed.

End SupplierDetectors.

(** ** Null cells *)

Lemma gt_notna (x c : float) :
  PyFloat.notna x && (x >? c)%float = (x >? c)%float.
Proof.
  unfold PyFloat.notna, PyFloat.gt.
  destruct (c <? x)%float eqn:E; [| apply andb_false_r].
  apply FloatFacts.ltb_true_not_nan in E. destruct E as [_ ->]. reflexivity.
Qed.

Lemma gt_null (x c : float) : is_nan x = true -> (x >? c)%float = false.
Proof.
  intros Hnan. unfold PyFloat.gt. destruct (c <? x)%float eqn:E; [| reflexivity].
  apply FloatFacts.ltb_true_not_nan in E. destruct E as [_ E]. congruence.
Qed.

Lemma count_all_null (xs : list float) :
  Forall (fun x => is_nan x = true) xs -> Series.count xs = 0.
Proof.
  unfold Series.count, PyFloat.notna.
  induction 1 as [| x xs Hx _ IH]; cbn; [reflexivity |]. now rewrite Hx.
Qed.

(** The reductions of a column without a value are all null. *)
Lemma reductions_all_null (xs : list float) :
  Forall (fun x => is_nan x = true) xs ->
  Series.mean xs = nan /\ Series.max xs = nan /\ Series.min xs = nan.
Proof.
  intros Hall. unfold Series.mean, Series.max, Series.min.
  now rewrite (count_all_null xs Hall).
Qed.

Lemma Forall_skipn {A : Type} (P : A -> Prop) (n : nat) (l : list A) :
  Forall P l -> Forall P (skipn n l).
Proof.
  intros H. revert n. induction H as [| x l Hx Hl IH]; intros [| n]; cbn; auto.
Qed.

Section ScannerAndTrends.

Variable py_str : float -> string.
Variable py_round1 : float -> float.

(** *** Safety scanner *)

(** What the loop body appends for one row, by the two comparisons. *)
Lemma safety_row_cases (row : Row) :
  safety_row py_str row
  = match
      (if (endotoxin row >? 1.0)%float
       then [("High endotoxin: " ++ py_str (endotoxin row) ++ " EU/mg")%string] else [])
      ++ (if (residualTfa row >? 1.5)%float
          then [("High residual TFA: " ++ py_str (residualTfa row) ++ "%")%string] else [])
    with
    | [] => []
    | c :: cs =>
        [ {| s_tracking_id := tracking_id row;
             s_supplier := supplierName row;
             s_peptide := peptideType row;
             s_concerns := c :: cs;
             s_severity :=
               if (residualTfa row >? 1.5)%float then WARNING
               else if (endotoxin row >? 2.0)%float then CRITICAL else WARNING |} ]
    end.
Proof.
  unfold safety_row, check_residualTfa, check_endotoxin. cbv zeta.
  rewrite !gt_notna.
  destruct (endotoxin row >? 1.0)%float, (residualTfa row >? 1.5)%float; reflexivity.
Qed.

(** X7: the scanner reports the rows whose endotoxin is above 1.0 or whose
    residual TFA is above 1.5, one finding per such row, in frame order; a
    null measurement never counts as above a threshold, so a frame without
    measurements gives no finding. *)
Theorem safety_flagged_rows (df : DataFrame) :
  map s_tracking_id (detect_safety_concerns py_str df)
  = map tracking_id
        (filter (fun r => (endotoxin r >? 1.0)%float || (residualTfa r >? 1.5)%float) df) /\
  List.length (detect_safety_concerns py_str df) <= List.length df /\
  (Forall (fun r => is_nan (endotoxin r) = true /\ is_nan (residualTfa r) = true) df ->
   detect_safety_concerns py_str df = []).
Proof.
  unfold detect_safety_concerns.
  assert (Hrow : forall r,
            map s_tracking_id (safety_row py_str r)
            = if (endotoxin r >? 1.0)%float || (residualTfa r >? 1.5)%float
              then [tracking_id r] else []).
  { intros r. rewrite safety_row_cases.
    destruct (endotoxin r >? 1.0)%float, (residualTfa r >? 1.5)%float; reflexivity. }
  split; [| split].
  - induction df as [| r t IH]; cbn; [reflexivity |].
    rewrite map_app, IH, Hrow.
    destruct (_ || _); reflexivity.
  - induction df as [| r t IH]; cbn; [lia |].
    rewrite length_app. pose proof (f_equal (@List.length _) (Hrow r)) as Hl.
    rewrite length_map in Hl. rewrite Hl.
    destruct (_ || _); cbn; lia.
  - induction 1 as [| r t [He Ht] _ IH]; cbn; [reflexivity |].
    rewrite IH, safety_row_cases, (gt_null _ _ He), (gt_null _ _ Ht). reflexivity.
Qed.

(** X8: a safety finding identifies its row, lists the endotoxin concern
    before the residual-TFA concern, and is CRITICAL exactly when endotoxin
    is above 2.0 and residual TFA is not above 1.5. *)
Theorem safety_finding_content (df : DataFrame) (f : SafetyFinding) :
  In f (detect_safety_concerns py_str df) ->
  exists row,
    In row df /\
    s_tracking_id f = tracking_id row /\
    s_supplier f = supplierName row /\
    s_peptide f = peptideType row /\
    s_concerns f
    = (if (endotoxin row >? 1.0)%float
       then [("High endotoxin: " ++ py_str (endotoxin row) ++ " EU/mg")%string] else [])
      ++ (if (residualTfa row >? 1.5)%float
          then [("High residual TFA: " ++ py_str (residualTfa row) ++ "%")%string] else []) /\
    1 <= List.length (s_concerns f) <= 2 /\
    (s_severity f = CRITICAL <->
     (endotoxin row >? 2.0)%float = true /\ (residualTfa row >? 1.5)%float = false).
Proof.
  unfold detect_safety_concerns. rewrite in_flat_map.
  intros (row & Hrow & Hin). exists row. split; [exact Hrow |].
  rewrite safety_row_cases in Hin.
  destruct (endotoxin row >? 1.0)%float, (residualTfa row >? 1.5)%float,
    (endotoxin row >? 2.0)%float; cbn in Hin;
    try contradiction; destruct Hin as [<- | []]; cbn;
    repeat split; try lia; try intros [? ?]; try intros ?; congruence.
Qed.

(** *** Suppliers without purity values *)

(** X9: a supplier whose purity cells are all null gets neither a decline
    finding nor a variance finding. *)
Theorem null_purity_no_finding (df : DataFrame) (supplier : string) :
  (forall r, In r df -> supplierName r = supplier -> is_nan (purity r) = true) ->
  (forall f, In f (detect_declining_suppliers py_round1 df) -> d_supplier f <> supplier) /\
  (forall f, In f (detect_batch_variance py_round1 df) -> v_supplier f <> supplier).
Proof.
  intros Hnull.
  assert (Hcol : forall rows : DataFrame,
            (forall r, In r rows -> In r df /\ supplierName r = supplier) ->
            Forall (fun x => is_nan x = true) (map purity rows)).
  { intros rows Hrows. apply Forall_map, Forall_forall. intros r Hr.
    destruct (Hrows r Hr). auto. }
  split; intros f Hin Hs.
  - apply detect_declining_In in Hin. destruct Hin as (_ & Hin).
    apply declining_supplier_In in Hin. destruct Hin as (_ & Hdrop & _).
    rewrite Hs in Hdrop.
    assert (Hh : Forall (fun x => is_nan x = true)
                   (map purity (supplier_history df supplier)))
      by (apply Hcol; intros r; apply supplier_history_In).
    rewrite Forall_map in Hh.
    assert (Hrecent : recent_avg (supplier_history df supplier) = nan).
    { unfold recent_avg, head. apply reductions_all_null, Forall_map.
      now apply Forall_firstn. }
    assert (Hprev : previous_avg (supplier_history df supplier) = nan).
    { unfold previous_avg. destruct (3 <? _)%nat; [| exact Hrecent].
      unfold iloc. apply reductions_all_null, Forall_map.
      now apply Forall_firstn, Forall_skipn. }
    unfold purity_drop in Hdrop. rewrite Hrecent, Hprev in Hdrop. discriminate Hdrop.
  - apply detect_variance_In in Hin.
    apply variance_supplier_In in Hin. destruct Hin as (_ & Hrange & _).
    rewrite Hs in Hrange.
    assert (Hh : Forall (fun x => is_nan x = true) (map purity (by_supplier supplier df)))
      by (apply Hcol; intros r; apply by_supplier_In).
    destruct (reductions_all_null _ Hh) as (_ & Hmax & Hmin).
    unfold range_purity in Hrange. rewrite Hmax, Hmin in Hrange. discriminate Hrange.
Qed.

(** *** Trend aggregator *)

(** X10: the trend dict has one entry per product category with at least 5
    rows, in the order of the categories' first rows; each entry reports
    the category's row count and a trend that is "improving" or
    "declining". *)
Theorem market_trends_entries (df : DataFrame) :
  map fst (analyze_market_trends py_round1 df)
  = filter (fun k => (5 <=? List.length (by_peptide k df))%nat)
           (unique (map peptideType df)) /\
  NoDup (map fst (analyze_market_trends py_round1 df)) /\
  (forall k e, In (k, e) (analyze_market_trends py_round1 df) ->
     t_sample_count e = List.length (by_peptide k df) /\
     5 <= t_sample_count e /\
     (t_trend e = "improving"%string \/ t_trend e = "declining"%string)).
Proof.
  assert (Hkeys : map fst (analyze_market_trends py_round1 df)
                  = filter (fun k => (5 <=? List.length (by_peptide k df))%nat)
                           (unique (map peptideType df))).
  { apply flat_map_keyed_filter; intros k Hk; unfold trend_peptide; cbv zeta;
      rewrite Hk; eauto. }
  split; [exact Hkeys |]. split.
  - rewrite Hkeys. apply NoDup_filter, unique_NoDup.
  - intros k e Hin. apply analyze_market_trends_In in Hin. cbn [fst] in Hin.
    apply trend_peptide_In in Hin. destruct Hin as (Hlen & Heq).
    injection Heq as ->. cbn. apply Nat.leb_le in Hlen.
    repeat split; [exact Hlen |].
    unfold trend_of. cbv zeta. destruct (_ >? _)%float; auto.
Qed.

End ScannerAndTrends.

(** * Further properties of alerting and of the run *)

Lemma append_length (s1 s2 : string) :
  String.length (s1 ++ s2) = String.length s1 + String.length s2.
Proof.
  induction s1 as [| c s1 IH]; cbn; [reflexivity | now rewrite IH].
Qed.

Lemma unique_length (l : list string) : List.length (unique l) <= List.length l.
Proof.
  induction l as [| a t IH]; cbn; [lia |].
  pose proof (filter_length_le (fun y => negb (String.eqb a y)) (unique t)). lia.
Qed.

Section AlertsAndRun.

Variable py_str : float -> string.
Variable py_round1 : float -> float.

(** *** The prompt *)

(** X11: the prompt carries the full counts but at most the first 5
    findings of each kind, the whole trend dict, and a number of distinct
    suppliers between 1 and the number of rows on a non-empty frame;
    [generate_ai_insights] sends it once and returns the reply. *)
Theorem prompt_contents (w : World) (df : DataFrame) (declining : list DeclineFinding)
    (variance : list VarianceFinding) (safety : list SafetyFinding) :
  let prompt := build_prompt py_round1 df declining variance safety in
  generate_ai_insights py_round1 w df declining variance safety
  = ([Generated prompt], inr (claude_reply w prompt)) /\
  (p_declining_count prompt = List.length declining /\
   List.length (p_declining prompt) = Nat.min 5 (List.length declining) /\
   exists rest, declining = p_declining prompt ++ rest) /\
  (p_variance_count prompt = List.length variance /\
   List.length (p_variance prompt) = Nat.min 5 (List.length variance) /\
   exists rest, variance = p_variance prompt ++ rest) /\
  (p_safety_count prompt = List.length safety /\
   List.length (p_safety prompt) = Nat.min 5 (List.length safety) /\
   exists rest, safety = p_safety prompt ++ rest) /\
  p_trends prompt = analyze_market_trends py_round1 df /\
  p_suppliers prompt <= p_total prompt /\
  p_peptides prompt <= p_total prompt /\
  (df <> [] -> 1 <= p_suppliers prompt /\ 1 <= p_peptides prompt).
Proof.
  cbv zeta. split; [reflexivity |]. unfold build_prompt.
  cbn [p_total p_suppliers p_peptides p_declining_count p_declining p_variance_count
       p_variance p_safety_count p_safety p_trends].
  repeat split; try apply length_firstn;
    try (eexists; symmetry; apply firstn_skipn).
  - rewrite <- (length_map supplierName df). apply unique_length.
  - rewrite <- (length_map peptideType df). apply unique_length.
  - destruct df; [congruence | cbn; lia].
  - destruct df; [congruence | cbn; lia].
Qed.

(** *** The critical message *)

(** The loop over the slice either renders every finding or raises on the
    first safety finding without a concern, having posted nothing. *)
Lemma section_blocks_cases (issues : list Issue) :
  (Forall issue_has_text issues /\
   exists blocks, section_blocks py_str issues = ret blocks) \/
  (Exists (fun i => ~ issue_has_text i) issues /\
   section_blocks py_str issues = raise IndexError).
Proof.
  induction issues as [| issue rest IH].
  - left. split; [constructor | now exists []].
  - assert (Hissue : (issue_has_text issue /\
                      exists text, concern_text py_str issue = ret text) \/
                     (~ issue_has_text issue /\
                      concern_text py_str issue = raise IndexError)).
    { destruct issue as [d | f]; cbn.
      - left. split; [exact I | eexists; reflexivity].
      - unfold has_concern. destruct (s_concerns f) as [| c cs].
        + right. split; [intros H; now apply H | reflexivity].
        + left. split; [discriminate | eexists; reflexivity]. }
    destruct Hissue as [(Htext & text & Hct) | (Hno & Hct)].
    + destruct IH as [(Hall & blocks & Hsb) | (Hex & Hsb)].
      * left. split; [now constructor |].
        eexists. cbn [section_blocks]. rewrite Hct, Hsb. reflexivity.
      * right. split; [now apply Exists_cons_tl |].
        cbn [section_blocks]. rewrite Hct, Hsb. reflexivity.
    + right. split; [now apply Exists_cons_hd |].
      cbn [section_blocks]. rewrite Hct. reflexivity.
Qed.

Lemma section_blocks_declines (ds : list DeclineFinding) :
  section_blocks py_str (map DeclineIssue ds)
  = ret (map (fun d => section_of (DeclineIssue d)
                         ("Quality drop: " ++ py_str (d_drop d) ++ "%")%string) ds).
Proof.
  induction ds as [| d ds IH]; cbn [map section_blocks]; [reflexivity |].
  rewrite IH. reflexivity.
Qed.

(** A dispatcher without a usable webhook target does nothing. *)
Lemma send_alerts_unconfigured (self : TrendDetector)
    (declining : list DeclineFinding) (variance : list VarianceFinding)
    (safety : list SafetyFinding) (insights : string) (total_tests : nat) :
  slack_webhook self = None \/ slack_webhook self = Some EmptyString ->
  send_alerts py_str self declining variance safety insights total_tests = ([], inr tt).
Proof.
  unfold send_alerts. intros [-> | ->]; reflexivity.
Qed.

(** The three ways a call to the dispatcher can go. *)
Lemma send_alerts_cases (self : TrendDetector)
    (declining : list DeclineFinding) (variance : list VarianceFinding)
    (safety : list SafetyFinding) (insights : string) (total_tests : nat) :
  ((slack_webhook self = None \/ slack_webhook self = Some EmptyString) /\
   send_alerts py_str self declining variance safety insights total_tests = ([], inr tt)) \/
  (exists url,
     slack_webhook self = Some url /\ url <> EmptyString /\
     Exists (fun i => ~ issue_has_text i) (firstn 3 (critical_issues declining safety)) /\
     send_alerts py_str self declining variance safety insights total_tests
     = ([], inl IndexError)) \/
  (exists url blocks,
     slack_webhook self = Some url /\ url <> EmptyString /\
     Forall issue_has_text (firstn 3 (critical_issues declining safety)) /\
     send_alerts py_str self declining variance safety insights total_tests
     = (match critical_issues declining safety with
        | [] => []
        | _ :: _ => [Posted url (BlocksBody (critical_header :: blocks))]
        end ++ [Posted url (summary_body declining safety insights total_tests)],
        inr tt)).
Proof.
  destruct (slack_webhook self) as [[| c u] |] eqn:Hweb.
  - left. split; [now right |]. apply send_alerts_unconfigured. now right.
  - right.
    destruct (section_blocks_cases (firstn 3 (critical_issues declining safety)))
      as [(Hall & blocks & Hsb) | (Hex & Hsb)].
    + right. exists (String c u), blocks. repeat split; try discriminate; auto.
      unfold send_alerts. rewrite Hweb. cbv zeta.
      destruct (critical_issues declining safety) as [| i rest]; [reflexivity |].
      rewrite Hsb. reflexivity.
    + left. exists (String c u). repeat split; try discriminate; auto.
      unfold send_alerts. rewrite Hweb. cbv zeta.
      destruct (critical_issues declining safety) as [| i rest].
      * cbn in Hex. inversion Hex.
      * rewrite Hsb. reflexivity.
  - left. split; [now left |]. apply send_alerts_unconfigured. now left.
Qed.

(** X12: with findings that each carry a concern, the dispatcher stays
    silent exactly when the webhook target is unset or empty. *)
Theorem send_alerts_silent_iff (self : TrendDetector)
    (declining : list DeclineFinding) (variance : list VarianceFinding)
    (safety : list SafetyFinding) (insights : string) (total_tests : nat) :
  Forall has_concern safety ->
  (trace (send_alerts py_str self declining variance safety insights total_tests) = [] <->
   slack_webhook self = None \/ slack_webhook self = Some EmptyString).
Proof.
  intros Hsafe. split.
  - intros Htrace.
    destruct (slack_webhook self) as [url |] eqn:Hweb; [| now left].
    destruct url as [| c u]; [now right |].
    destruct (send_alerts_configured py_str self (String c u) declining variance safety
                insights total_tests Hweb ltac:(discriminate) Hsafe) as (blocks & _ & Hsend).
    rewrite Hsend in Htrace. unfold trace in Htrace. cbn [fst] in Htrace.
    now apply app_eq_nil in Htrace.
  - intros Hno. now rewrite send_alerts_unconfigured.
Qed.

(** X13: the dispatcher raises exactly when a webhook target is set and one
    of the first three critical findings is a safety finding with an empty
    concern list; it has then posted nothing, the summary included. *)
Theorem send_alerts_raises_iff (self : TrendDetector)
    (declining : list DeclineFinding) (variance : list VarianceFinding)
    (safety : list SafetyFinding) (insights : string) (total_tests : nat) :
  (outcome (send_alerts py_str self declining variance safety insights total_tests)
   = inl IndexError <->
   (exists url, slack_webhook self = Some url /\ url <> EmptyString) /\
   exists s, In (SafetyIssue s) (firstn 3 (critical_issues declining safety)) /\
             s_concerns s = []) /\
  (outcome (send_alerts py_str self declining variance safety insights total_tests)
   <> inr tt ->
   trace (send_alerts py_str self declining variance safety insights total_tests) = []).
Proof.
  assert (Hbad : forall issues,
            Exists (fun i => ~ issue_has_text i) issues <->
            exists s, In (SafetyIssue s) issues /\ s_concerns s = []).
  { intros issues. rewrite Exists_exists. split.
    - intros ([d | s] & Hin & Hno); cbn in Hno; [now exfalso; apply Hno |].
      exists s. split; [exact Hin |]. unfold has_concern in Hno.
      destruct (s_concerns s); [reflexivity | exfalso; apply Hno; discriminate].
    - intros (s & Hin & Hnil). exists (SafetyIssue s). split; [exact Hin |].
      cbn. unfold has_concern. now rewrite Hnil. }
  destruct (send_alerts_cases self declining variance safety insights total_tests)
    as [(Hno & Hsend) | [(url & Hweb & Hurl & Hex & Hsend)
                        | (url & blocks & Hweb & Hurl & Hall & Hsend)]];
    rewrite Hsend; unfold outcome, trace; cbn [fst snd]; split.
  - split; [discriminate |]. intros ((url & Hweb & Hurl) & _).
    destruct Hno as [Hno | Hno]; rewrite Hno in Hweb; congruence.
  - congruence.
  - split; [| reflexivity]. intros _. split; [now exists url |]. now apply Hbad.
  - reflexivity.
  - split; [discriminate |]. intros (_ & Hs). apply Hbad in Hs.
    exfalso. apply Exists_exists in Hs. destruct Hs as (i & Hin & Hno).
    rewrite Forall_forall in Hall. exact (Hno (Hall i Hin)).
  - congruence.
Qed.

(** X14: with three or more CRITICAL decline findings, the critical message
    renders the first three of them and no safety finding, whatever the
    safety findings are. *)
Theorem critical_declines_fill_message (self : TrendDetector) (url : string)
    (declining : list DeclineFinding) (variance : list VarianceFinding)
    (safety : list SafetyFinding) (insights : string) (total_tests : nat) :
  slack_webhook self = Some url -> url <> EmptyString ->
  3 <= List.length (filter (fun d => is_critical (d_severity d)) declining) ->
  send_alerts py_str self declining variance safety insights total_tests
  = ([Posted url
        (BlocksBody
           (critical_header
            :: map (fun d => section_of (DeclineIssue d)
                               ("Quality drop: " ++ py_str (d_drop d) ++ "%")%string)
                   (firstn 3 (filter (fun d => is_critical (d_severity d)) declining))));
      Posted url (summary_body declining safety insights total_tests)],
     inr tt).
Proof.
  intros Hweb Hurl Hlen.
  assert (Hslice : firstn 3 (critical_issues declining safety)
                   = map DeclineIssue
                       (firstn 3 (filter (fun d => is_critical (d_severity d)) declining))).
  { unfold critical_issues. rewrite firstn_app, length_map.
    replace (3 - _) with 0 by lia. rewrite firstn_O, app_nil_r. apply firstn_map. }
  unfold send_alerts. rewrite Hweb. destruct url as [| c u]; [congruence |].
  cbv zeta.
  destruct (critical_issues declining safety) as [| i rest] eqn:Ecrit.
  - exfalso. unfold critical_issues in Ecrit. apply app_eq_nil in Ecrit.
    destruct Ecrit as [Ecrit _]. apply (f_equal (@List.length _)) in Ecrit.
    rewrite length_map in Ecrit. cbn in Ecrit. lia.
  - rewrite Hslice, section_blocks_declines. reflexivity.
Qed.

(** X15: whatever its inputs, the dispatcher posts to the configured
    webhook target only, at most twice, and its last post is the summary. *)
Theorem send_alerts_posts (self : TrendDetector)
    (declining : list DeclineFinding) (variance : list VarianceFinding)
    (safety : list SafetyFinding) (insights : string) (total_tests : nat) :
  (forall ev,
     In ev (trace (send_alerts py_str self declining variance safety insights total_tests)) ->
     exists url body, slack_webhook self = Some url /\ ev = Posted url body) /\
  List.length (trace (send_alerts py_str self declining variance safety insights
                        total_tests)) <= 2 /\
  (trace (send_alerts py_str self declining variance safety insights total_tests) = [] \/
   exists alerts url,
     trace (send_alerts py_str self declining variance safety insights total_tests)
     = alerts ++ [Posted url (summary_body declining safety insights total_tests)]).
Proof.
  destruct (send_alerts_cases self declining variance safety insights total_tests)
    as [(Hno & Hsend) | [(url & Hweb & Hurl & Hex & Hsend)
                        | (url & blocks & Hweb & Hurl & Hall & Hsend)]];
    rewrite Hsend; unfold trace; cbn [fst].
  - repeat split; [contradiction | cbn; lia | now left].
  - repeat split; [contradiction | cbn; lia | now left].
  - split; [| split].
    + intros ev Hin. apply in_app_iff in Hin.
      destruct Hin as [Hin | [<- | []]]; [| eauto].
      destruct (critical_issues declining safety); [contradiction |].
      destruct Hin as [<- | []]. eauto.
    + rewrite length_app. destruct (critical_issues declining safety); cbn; lia.
    + right. eauto.
Qed.

(** X16: the attachment of the summary is never longer than 503
    characters: the first 500 of the brief at most, and the 3 of the marker. *)
Theorem summary_attachment_bound (declining : list DeclineFinding)
    (safety : list SafetyFinding) (insights : string) (total_tests : nat) :
  exists text attachment,
    summary_body declining safety insights total_tests
    = SummaryBody text "#36a64f" attachment /\
    String.length attachment = Nat.min 500 (String.length insights) + 3 /\
    String.length attachment <= 503.
Proof.
  do 2 eexists. split; [reflexivity |].
  rewrite append_length, take_length.
  change (String.length "...") with 3. lia.
Qed.

End AlertsAndRun.

Section RunProperties.

Variable py_str : float -> string.
Variable py_round1 : float -> float.

(** On findings that each carry a concern the dispatcher returns, and all
    it does is post. *)
Lemma send_alerts_returns (self : TrendDetector)
    (declining : list DeclineFinding) (variance : list VarianceFinding)
    (safety : list SafetyFinding) (insights : string) (total_tests : nat) :
  Forall has_concern safety ->
  exists alerts,
    send_alerts py_str self declining variance safety insights total_tests
    = (alerts, inr tt) /\
    queried_days alerts = [] /\ generated_prompts alerts = [].
Proof.
  intros Hsafe.
  destruct (send_alerts_cases py_str self declining variance safety insights total_tests)
    as [(_ & Hsend) | [(url & _ & _ & Hex & _)
                      | (url & blocks & _ & _ & _ & Hsend)]].
  - exists []. now rewrite Hsend.
  - exfalso. apply Exists_exists in Hex. destruct Hex as (i & Hin & Hno).
    pose proof (Forall_firstn issue_has_text 3 _
                  (critical_issues_have_text declining safety Hsafe)) as Hall.
    rewrite Forall_forall in Hall. exact (Hno (Hall i Hin)).
  - eexists. split; [exact Hsend |].
    destruct (critical_issues declining safety); split; reflexivity.
Qed.

(** The events of a run on a non-empty frame, around those of the
    dispatcher. *)
Lemma run_nonempty_eq (w : World) (self : TrendDetector) :
  completed_samples w 7 <> [] ->
  run py_str py_round1 w self
  = (Printed ("[" ++ now w ++ "] Running trend detection...")%string
     :: Queried 7
     :: Generated
          (build_prompt py_round1 (completed_samples w 7)
             (detect_declining_suppliers py_round1 (completed_samples w 7))
             (detect_batch_variance py_round1 (completed_samples w 7))
             (detect_safety_concerns py_str (completed_samples w 7)))
     :: trace
          (send_alerts py_str self
             (detect_declining_suppliers py_round1 (completed_samples w 7))
             (detect_batch_variance py_round1 (completed_samples w 7))
             (detect_safety_concerns py_str (completed_samples w 7))
             (claude_reply w
                (build_prompt py_round1 (completed_samples w 7)
                   (detect_declining_suppliers py_round1 (completed_samples w 7))
                   (detect_batch_variance py_round1 (completed_samples w 7))
                   (detect_safety_concerns py_str (completed_samples w 7))))
             (List.length (completed_samples w 7)))
     ++ [Printed
           ("Complete. Found: "
            ++ PyStr.of_nat
                 (List.length (detect_declining_suppliers py_round1 (completed_samples w 7)))
            ++ " declining, "
            ++ PyStr.of_nat
                 (List.length (detect_batch_variance py_round1 (completed_samples w 7)))
            ++ " variance, "
            ++ PyStr.of_nat
                 (List.length (detect_safety_concerns py_str (completed_samples w 7)))
            ++ " safety")%string;
         Printed
           ("Insights: "
            ++ PyStr.take 200
                 (claude_reply w
                    (build_prompt py_round1 (completed_samples w 7)
                       (detect_declining_suppliers py_round1 (completed_samples w 7))
                       (detect_batch_variance py_round1 (completed_samples w 7))
                       (detect_safety_concerns py_str (completed_samples w 7))))
            ++ "...")%string],
     inr tt).
Proof.
  intros Hne.
  assert (Hlen : (List.length (completed_samples w 7) =? 0)%nat = false).
  { destruct (completed_samples w 7); [congruence | reflexivity]. }
  unfold run, fetch_recent_tests, generate_ai_insights.
  set (df := completed_samples w 7) in *.
  destruct (send_alerts_returns self
              (detect_declining_suppliers py_round1 df)
              (detect_batch_variance py_round1 df)
              (detect_safety_concerns py_str df)
              (claude_reply w
                 (build_prompt py_round1 df (detect_declining_suppliers py_round1 df)
                    (detect_batch_variance py_round1 df) (detect_safety_concerns py_str df)))
              (List.length df) (safety_findings_have_concern py_str df))
    as (alerts & Hsend & _).
  unfold bind, emit, ret, trace. cbn [fst snd app].
  rewrite Hlen, Hsend. cbn [fst snd app]. reflexivity.
Qed.

(** X17: a run never raises; it queries the store once, for a window of 7
    days; on a non-empty frame it then sends one prompt, lets the
    dispatcher post, and prints the counts of the three detectors and the
    first 200 characters of the brief, in this order. *)
Theorem run_event_order (w : World) (self : TrendDetector) :
  outcome (run py_str py_round1 w self) = inr tt /\
  queried_days (trace (run py_str py_round1 w self)) = [7] /\
  (completed_samples w 7 <> [] ->
   generated_prompts (trace (run py_str py_round1 w self))
   = [build_prompt py_round1 (completed_samples w 7)
        (detect_declining_suppliers py_round1 (completed_samples w 7))
        (detect_batch_variance py_round1 (completed_samples w 7))
        (detect_safety_concerns py_str (completed_samples w 7))] /\
   exists alerts brief,
     brief = claude_reply w
               (build_prompt py_round1 (completed_samples w 7)
                  (detect_declining_suppliers py_round1 (completed_samples w 7))
                  (detect_batch_variance py_round1 (completed_samples w 7))
                  (detect_safety_concerns py_str (completed_samples w 7))) /\
     send_alerts py_str self
       (detect_declining_suppliers py_round1 (completed_samples w 7))
       (detect_batch_variance py_round1 (completed_samples w 7))
       (detect_safety_concerns py_str (completed_samples w 7))
       brief (List.length (completed_samples w 7)) = (alerts, inr tt) /\
     trace (run py_str py_round1 w self)
     = [Printed ("[" ++ now w ++ "] Running trend detection...")%string;
        Queried 7;
        Generated
          (build_prompt py_round1 (completed_samples w 7)
             (detect_declining_suppliers py_round1 (completed_samples w 7))
             (detect_batch_variance py_round1 (completed_samples w 7))
             (detect_safety_concerns py_str (completed_samples w 7)))]
       ++ alerts
       ++ [Printed
             ("Complete. Found: "
              ++ PyStr.of_nat
                   (List.length
                      (detect_declining_suppliers py_round1 (completed_samples w 7)))
              ++ " declining, "
              ++ PyStr.of_nat
                   (List.length (detect_batch_variance py_round1 (completed_samples w 7)))
              ++ " variance, "
              ++ PyStr.of_nat
                   (List.length (detect_safety_concerns py_str (completed_samples w 7)))
              ++ " safety")%string;
           Printed ("Insights: " ++ PyStr.take 200 brief ++ "...")%string]).
Proof.
  destruct (completed_samples w 7) as [| r df] eqn:Edf.
  - assert (Hrun : run py_str py_round1 w self
                   = ([Printed ("[" ++ now w ++ "] Running trend detection...")%string;
                       Queried 7;
                       Printed "No recent tests found"], inr tt)).
    { unfold run, fetch_recent_tests. rewrite Edf. reflexivity. }
    rewrite Hrun. split; [reflexivity | split; [reflexivity | congruence]].
  - assert (Hne : completed_samples w 7 <> []) by (rewrite Edf; discriminate).
    pose proof (run_nonempty_eq w self Hne) as Hrun.
    destruct (send_alerts_returns self
                (detect_declining_suppliers py_round1 (completed_samples w 7))
                (detect_batch_variance py_round1 (completed_samples w 7))
                (detect_safety_concerns py_str (completed_samples w 7))
                (claude_reply w
                   (build_prompt py_round1 (completed_samples w 7)
                      (detect_declining_suppliers py_round1 (completed_samples w 7))
                      (detect_batch_variance py_round1 (completed_samples w 7))
                      (detect_safety_concerns py_str (completed_samples w 7))))
                (List.length (completed_samples w 7))
                (safety_findings_have_concern py_str (completed_samples w 7)))
      as (alerts & Hsend & Hq & Hg).
    rewrite Hsend in Hrun. unfold trace in Hrun. cbn [fst] in Hrun.
    rewrite <- Edf. rewrite Hrun. unfold outcome, trace. cbn [fst snd].
    split; [reflexivity |]. split.
    + unfold queried_days in *. cbn [flat_map app]. rewrite flat_map_app, Hq. reflexivity.
    + intros _. split.
      * unfold generated_prompts in *. cbn [flat_map app]. rewrite flat_map_app, Hg.
        reflexivity.
      * exists alerts. eexists. split; [reflexivity |]. split; [exact Hsend | reflexivity].
Qed.

(** X18: without a usable webhook target a run on a non-empty frame still
    sends its prompt to the text generation service, and posts nothing. *)
Theorem run_without_webhook (w : World) (self : TrendDetector) :
  slack_webhook self = None \/ slack_webhook self = Some EmptyString ->
  completed_samples w 7 <> [] ->
  List.length (generated_prompts (trace (run py_str py_round1 w self))) = 1 /\
  posted_bodies (trace (run py_str py_round1 w self)) = [] /\
  List.length (trace (run py_str py_round1 w self)) = 5.
Proof.
  intros Hno Hne. rewrite (run_nonempty_eq w self Hne).
  rewrite (send_alerts_unconfigured py_str self _ _ _ _ _ Hno).
  unfold trace. cbn [fst app]. repeat split.
Qed.

(** The first two events of every run. *)
Lemma run_first_events (w : World) (self : TrendDetector) :
  exists rest,
    trace (run py_str py_round1 w self)
    = Printed ("[" ++ now w ++ "] Running trend detection...")%string :: Queried 7 :: rest.
Proof.
  destruct (completed_samples w 7) as [| r df] eqn:Edf.
  - eexists. unfold run, fetch_recent_tests. rewrite Edf. reflexivity.
  - rewrite run_nonempty_eq; [| rewrite Edf; discriminate].
    eexists. reflexivity.
Qed.

(** X19: start-up fails, before any event, on the first of these that
    applies: DATABASE_URL is not set (KeyError); the engine constructor
    raises on its value, whether ANTHROPIC_API_KEY is set or not;
    ANTHROPIC_API_KEY is not set (KeyError); the client constructor raises.
    Nothing happens in exactly these cases. Otherwise the process does what
    [run] does on a detector whose webhook target is what
    [os.environ.get] finds under SLACK_WEBHOOK_URL, set or not, beginning
    with the start line and the query. *)
Theorem main_startup (lib : Constructors) (environ : Environ) (w : World) :
  (environ "DATABASE_URL"%string = None ->
   main py_str py_round1 lib environ w
   = ([], inl (AtStart (KeyError "DATABASE_URL")))) /\
  (forall url,
     environ "DATABASE_URL"%string = Some url -> create_engine lib url = false ->
     main py_str py_round1 lib environ w = ([], inl (AtStart (EngineError url)))) /\
  (forall url,
     environ "DATABASE_URL"%string = Some url -> create_engine lib url = true ->
     environ "ANTHROPIC_API_KEY"%string = None ->
     main py_str py_round1 lib environ w
     = ([], inl (AtStart (KeyError "ANTHROPIC_API_KEY")))) /\
  (forall url key,
     environ "DATABASE_URL"%string = Some url -> create_engine lib url = true ->
     environ "ANTHROPIC_API_KEY"%string = Some key -> anthropic_client lib key = false ->
     main py_str py_round1 lib environ w = ([], inl (AtStart (ClientError key)))) /\
  (forall url key,
     environ "DATABASE_URL"%string = Some url -> create_engine lib url = true ->
     environ "ANTHROPIC_API_KEY"%string = Some key -> anthropic_client lib key = true ->
     main py_str py_round1 lib environ w
     = (trace (run py_str py_round1 w
                 {| slack_webhook := environ "SLACK_WEBHOOK_URL"%string |}),
        match outcome (run py_str py_round1 w
                         {| slack_webhook := environ "SLACK_WEBHOOK_URL"%string |}) with
        | inl e => inl (InRun e)
        | inr tt => inr tt
        end) /\
     exists rest,
       fst (main py_str py_round1 lib environ w)
       = Printed ("[" ++ now w ++ "] Running trend detection...")%string
         :: Queried 7 :: rest) /\
  (fst (main py_str py_round1 lib environ w) = [] <->
   environ "DATABASE_URL"%string = None \/
   (exists url, environ "DATABASE_URL"%string = Some url /\ create_engine lib url = false) \/
   environ "ANTHROPIC_API_KEY"%string = None \/
   (exists key, environ "ANTHROPIC_API_KEY"%string = Some key /\
                anthropic_client lib key = false)).
Proof.
  destruct (run_first_events w {| slack_webhook := environ "SLACK_WEBHOOK_URL"%string |})
    as (rest & Hrest).
  unfold main, init.
  destruct (environ "DATABASE_URL"%string) as [url |] eqn:Hurl.
  2: { repeat split; try discriminate; auto. }
  destruct (create_engine lib url) eqn:Hengine.
  2: { split; [discriminate |]. split; [intros u [= <-] _; reflexivity |].
       split; [intros u [= <-]; congruence |].
       split; [intros u k [= <-]; congruence |].
       split; [intros u k [= <-]; congruence |].
       split; [intros _ | reflexivity]. right. left. now exists url. }
  destruct (environ "ANTHROPIC_API_KEY"%string) as [key |] eqn:Hkey.
  2: { split; [discriminate |]. split; [intros u [= <-]; congruence |].
       split; [intros u [= <-] _ _; reflexivity |].
       split; [intros u k _ _; discriminate |].
       split; [intros u k _ _; discriminate |].
       split; [intros _ | reflexivity]. right. right. now left. }
  destruct (anthropic_client lib key) eqn:Hclient.
  2: { split; [discriminate |]. split; [intros u [= <-]; congruence |].
       split; [intros u _ _; discriminate |].
       split; [intros u k [= <-] _ [= <-] _; reflexivity |].
       split; [intros u k _ _ [= <-]; congruence |].
       split; [intros _ | reflexivity]. right. right. right. now exists key. }
  cbn [detector_self]. cbv zeta. cbn [fst].
  split; [discriminate |]. split; [intros u [= <-]; congruence |].
  split; [intros u _ _; discriminate |].
  split; [intros u k _ _ [= <-]; congruence |].
  split; [intros u k _ _ _ _; split; [reflexivity | now exists rest] |].
  rewrite Hrest. split; [discriminate |].
  intros [Hno | [(u & [= <-] & Hu) | [Hno | (k & [= <-] & Hk)]]]; congruence.
Qed.

(** X20: on a non-empty frame and with a webhook target, what a run posts
    is the critical message, when one of its findings is critical, and then
    one summary that reports the number of rows fetched, the numbers of
    decline and safety findings of this frame, and the brief it was given. *)
Theorem run_posts (w : World) (self : TrendDetector) (url : string) :
  completed_samples w 7 <> [] ->
  slack_webhook self = Some url -> url <> EmptyString ->
  exists blocks,
    posted_bodies (trace (run py_str py_round1 w self))
    = match critical_issues (detect_declining_suppliers py_round1 (completed_samples w 7))
                            (detect_safety_concerns py_str (completed_samples w 7)) with
      | [] => []
      | _ :: _ => [BlocksBody (critical_header :: blocks)]
      end
      ++ [summary_body
            (detect_declining_suppliers py_round1 (completed_samples w 7))
            (detect_safety_concerns py_str (completed_samples w 7))
            (claude_reply w
               (build_prompt py_round1 (completed_samples w 7)
                  (detect_declining_suppliers py_round1 (completed_samples w 7))
                  (detect_batch_variance py_round1 (completed_samples w 7))
                  (detect_safety_concerns py_str (completed_samples w 7))))
            (List.length (completed_samples w 7))] /\
    List.length blocks <= 3.
Proof.
  intros Hne Hweb Hurl. rewrite (run_nonempty_eq w self Hne).
  destruct (send_alerts_configured py_str self url
              (detect_declining_suppliers py_round1 (completed_samples w 7))
              (detect_batch_variance py_round1 (completed_samples w 7))
              (detect_safety_concerns py_str (completed_samples w 7))
              (claude_reply w
                 (build_prompt py_round1 (completed_samples w 7)
                    (detect_declining_suppliers py_round1 (completed_samples w 7))
                    (detect_batch_variance py_round1 (completed_samples w 7))
                    (detect_safety_concerns py_str (completed_samples w 7))))
              (List.length (completed_samples w 7)) Hweb Hurl
              (safety_findings_have_concern py_str (completed_samples w 7)))
    as (blocks & Hrender & Hsend).
  exists blocks. split.
  - rewrite Hsend. unfold trace, posted_bodies. cbn [fst flat_map app].
    rewrite flat_map_app. cbn [flat_map app]. rewrite app_nil_r.
    destruct (critical_issues _ _); reflexivity.
  - apply Forall2_length in Hrender. rewrite <- Hrender, length_firstn. lia.
Qed.

End RunProperties.

(** ** The further properties on concrete frames *)

Lemma decline_finding_fields_witness :
  In Samples.acme4_finding (detect_declining_suppliers Samples.no_round Samples.acme4) /\
  d_sample_count Samples.acme4_finding
  = List.length (by_supplier (d_supplier Samples.acme4_finding) Samples.acme4) /\
  4 <= d_sample_count Samples.acme4_finding.
Proof.
  assert (Hin : In Samples.acme4_finding
                   (detect_declining_suppliers Samples.no_round Samples.acme4)).
  { left. reflexivity. }
  split; [exact Hin |].
  destruct (decline_finding_fields Samples.no_round Samples.acme4 Samples.acme4_finding Hin)
    as (Hcount & Hfour & _).
  split; [exact Hcount | exact Hfour].
Defined.

Lemma decline_order_independent_witness :
  Permutation Samples.acme4 (rev Samples.acme4) /\
  NoDup (map createdAt Samples.acme4) /\
  (In Samples.acme4_finding (detect_declining_suppliers Samples.no_round Samples.acme4) <->
   In Samples.acme4_finding
      (detect_declining_suppliers Samples.no_round (rev Samples.acme4))).
Proof.
  assert (Hperm : Permutation Samples.acme4 (rev Samples.acme4)) by apply Permutation_rev.
  assert (Hnd : NoDup (map createdAt Samples.acme4)).
  { cbn. repeat (constructor; [cbn; intuition discriminate |]). constructor. }
  split; [exact Hperm |]. split; [exact Hnd |].
  exact (decline_order_independent Samples.no_round Samples.acme4 (rev Samples.acme4)
           Hperm Hnd Samples.acme4_finding).
Defined.

Lemma safety_finding_content_witness :
  In (Samples.safety "PTQ-2" "Acme" CRITICAL)
     (detect_safety_concerns (fun _ => "2.5"%string) [Samples.endotoxin_only]) /\
  exists row,
    In row [Samples.endotoxin_only] /\
    s_tracking_id (Samples.safety "PTQ-2" "Acme" CRITICAL) = tracking_id row /\
    (s_severity (Samples.safety "PTQ-2" "Acme" CRITICAL) = CRITICAL <->
     (endotoxin row >? 2.0)%float = true /\ (residualTfa row >? 1.5)%float = false).
Proof.
  assert (Hin : In (Samples.safety "PTQ-2" "Acme" CRITICAL)
                   (detect_safety_concerns (fun _ => "2.5"%string) [Samples.endotoxin_only])).
  { left. reflexivity. }
  split; [exact Hin |].
  destruct (safety_finding_content (fun _ => "2.5"%string) [Samples.endotoxin_only]
              (Samples.safety "PTQ-2" "Acme" CRITICAL) Hin)
    as (row & Hrow & Htid & _ & _ & _ & _ & Hsev).
  exists row. split; [exact Hrow |]. split; [exact Htid | exact Hsev].
Defined.

Lemma null_purity_no_finding_witness :
  (forall r, In r Samples.null_frame -> supplierName r = "Acme"%string ->
             is_nan (purity r) = true) /\
  (forall f, In f (detect_declining_suppliers Samples.no_round Samples.null_frame) ->
             d_supplier f <> "Acme"%string) /\
  (forall f, In f (detect_batch_variance Samples.no_round Samples.null_frame) ->
             v_supplier f <> "Acme"%string).
Proof.
  assert (Hnull : forall r, In r Samples.null_frame -> supplierName r = "Acme"%string ->
                            is_nan (purity r) = true).
  { intros r [<- | [<- | [<- | [<- | []]]]] _; reflexivity. }
  split; [exact Hnull |].
  exact (null_purity_no_finding Samples.no_round Samples.null_frame "Acme" Hnull).
Defined.

Lemma send_alerts_silent_iff_witness :
  Forall has_concern Samples.safety4 /\
  (trace (send_alerts Samples.no_str Samples.silent_detector Samples.declining3 []
                      Samples.safety4 Samples.brief 12) = [] <->
   slack_webhook Samples.silent_detector = None \/
   slack_webhook Samples.silent_detector = Some EmptyString).
Proof.
  assert (Hsafe : Forall has_concern Samples.safety4)
    by (repeat constructor; discriminate).
  split; [exact Hsafe |].
  exact (send_alerts_silent_iff Samples.no_str Samples.silent_detector Samples.declining3 []
           Samples.safety4 Samples.brief 12 Hsafe).
Defined.

Lemma critical_declines_fill_message_witness :
  (slack_webhook Samples.detector = Some Samples.hook /\
   Samples.hook <> EmptyString /\
   3 <= List.length (filter (fun d => is_critical (d_severity d)) Samples.declining4)) /\
  posted_bodies
    (trace (send_alerts (fun _ => "8.0"%string) Samples.detector Samples.declining4 []
                        Samples.safety4 Samples.brief 12))
  = [BlocksBody
       [HeaderBlock "🚨 CRITICAL QUALITY ALERTS";
        SectionBlock ("*Acme*" ++ PyStr.newline ++ "Quality drop: 8.0%");
        SectionBlock ("*Gamma*" ++ PyStr.newline ++ "Quality drop: 8.0%");
        SectionBlock ("*Delta*" ++ PyStr.newline ++ "Quality drop: 8.0%")];
     SummaryBody "📊 Weekly Quality Report: 12 tests, 4 declining, 4 safety issues"
                 "#36a64f" "Two suppliers need a call...."].
Proof.
  assert (Hweb : slack_webhook Samples.detector = Some Samples.hook) by reflexivity.
  assert (Hurl : Samples.hook <> EmptyString) by discriminate.
  assert (Hlen : 3 <= List.length (filter (fun d => is_critical (d_severity d))
                                          Samples.declining4))
    by (vm_compute; lia).
  split; [now repeat split |].
  rewrite (critical_declines_fill_message (fun _ => "8.0"%string) Samples.detector
             Samples.hook Samples.declining4 [] Samples.safety4 Samples.brief 12
             Hweb Hurl Hlen).
  reflexivity.
Defined.

Lemma run_without_webhook_witness :
  (slack_webhook Samples.silent_detector = None \/
   slack_webhook Samples.silent_detector = Some EmptyString) /\
  completed_samples Samples.busy_world 7 <> [] /\
  List.length
    (generated_prompts
       (trace (run Samples.no_str Samples.no_round Samples.busy_world
                   Samples.silent_detector))) = 1 /\
  posted_bodies
    (trace (run Samples.no_str Samples.no_round Samples.busy_world
                Samples.silent_detector)) = [].
Proof.
  assert (Hno : slack_webhook Samples.silent_detector = None \/
                slack_webhook Samples.silent_detector = Some EmptyString)
    by (left; reflexivity).
  assert (Hne : completed_samples Samples.busy_world 7 <> []) by discriminate.
  split; [exact Hno |]. split; [exact Hne |].
  destruct (run_without_webhook Samples.no_str Samples.no_round Samples.busy_world
              Samples.silent_detector Hno Hne) as (Hgen & Hposts & _).
  split; [exact Hgen | exact Hposts].
Defined.

Lemma variance_finding_fields_witness :
  In Samples.acme4_variance (detect_batch_variance Samples.no_round Samples.acme4) /\
  v_severity Samples.acme4_variance = WARNING /\
  v_batches Samples.acme4_variance
  = List.length (by_supplier (v_supplier Samples.acme4_variance) Samples.acme4).
Proof.
  assert (Hin : In Samples.acme4_variance
                   (detect_batch_variance Samples.no_round Samples.acme4)).
  { left. reflexivity. }
  split; [exact Hin |].
  destruct (variance_finding_fields Samples.no_round Samples.acme4 Samples.acme4_variance
              Hin) as (Hsev & Hcount & _).
  split; [exact Hsev | exact Hcount].
Defined.

Lemma run_posts_witness :
  (completed_samples Samples.busy_world 7 <> [] /\
   slack_webhook Samples.detector = Some Samples.hook /\
   Samples.hook <> EmptyString) /\
  exists blocks,
    posted_bodies
      (trace (run (fun _ => "9.0"%string) Samples.no_round Samples.busy_world
                  Samples.detector))
    = [BlocksBody (critical_header :: blocks);
       SummaryBody "📊 Weekly Quality Report: 4 tests, 1 declining, 0 safety issues"
                   "#36a64f" "Two suppliers need a call...."] /\
    List.length blocks <= 3.
Proof.
  assert (Hne : completed_samples Samples.busy_world 7 <> []) by discriminate.
  assert (Hweb : slack_webhook Samples.detector = Some Samples.hook) by reflexivity.
  assert (Hurl : Samples.hook <> EmptyString) by discriminate.
  split; [now repeat split |].
  destruct (run_posts (fun _ => "9.0"%string) Samples.no_round Samples.busy_world
              Samples.detector Samples.hook Hne Hweb Hurl) as (blocks & Hposts & Hlen).
  exists blocks. split; [exact Hposts | exact Hlen].
Defined.

(** An empty DATABASE_URL with no ANTHROPIC_API_KEY: the engine constructor
    raises before the key is looked up, and nothing has happened. *)
Example empty_database_url :
  main Samples.no_str Samples.no_round Samples.refusing_empty_url
       Samples.empty_url_environ Samples.busy_world
  = ([], inl (AtStart (EngineError EmptyString))).
Proof. reflexivity. Qed.
